(** * Xception-DeepLab topology builder: a shallow embedding

    This development embeds the model definition of
    [ppcls/arch/backbone/model_zoo/xception_deeplab.py] and states its
    construction-time properties.

    - Python values that reach the code ([int], [bool], [str], lists, tuples,
      [None]) are the inductive type [Py.value]; the operations the code
      uses on them ([type(x) == int], [len], indexing with negative
      indices, [isinstance(x, str)], [x is True]) are functions of [Py].
    - A Python exception is a constructor of [Py.exn].
    - Construction runs in a writer-with-errors monad [M]: the written log
      lists, in program order, every call into a collaborator (creation of
      a framework layer, a weight loader) and every update of the running
      stride accumulator [s].
    - Framework layers are records of their constructor arguments; tensors
      are terms over the framework's operators, so a forward pass is the
      term it builds.  The floating-point hyper-parameters passed to
      [BatchNorm] and [Dropout] ([epsilon], [momentum], [p]) are constants
      that no function of this file inspects; they are left out of the
      records. *)

From Stdlib Require Import ZArith List String Bool Lia.
From stdpp Require Import base option list strings gmap pretty.
Import ListNotations.
Open Scope Z_scope.

(** ** The Python runtime the module relies on *)

Module Py.

#[warnings="-register-all"]
Inductive value : Type :=
| VNone
| VBool (b : bool)
| VInt (z : Z)
| VStr (s : string)
| VList (l : list value)
| VTuple (l : list value).

Inductive exn : Type :=
| AssertionError
| TypeError
| IndexError
| OverflowError
| KeyError (k : string)
| AttributeError (a : string)
| Exception (msg : string)
| RuntimeError (msg : string).

(** A computation that returns or raises: [exn + A]. *)
#[global] Instance exn_ret : MRet (sum exn) := λ A a, inr a.

#[global] Instance exn_bind : MBind (sum exn) := λ A B f m,
  match m with
  | inl e => inl e
  | inr a => f a
  end.

(** [type(data) == int]: exact type, so [True] and [False] are not ints. *)
Definition type_is_int (v : value) : bool :=
  match v with VInt _ => true | _ => false end.

(** [isinstance(v, str)] *)
Definition isinstance_str (v : value) : bool :=
  match v with VStr _ => true | _ => false end.

(** [v is True], [v is False]: identity with the two boolean singletons. *)
Definition is_True (v : value) : bool :=
  match v with VBool true => true | _ => false end.

Definition is_False (v : value) : bool :=
  match v with VBool false => true | _ => false end.

(** [len(v)] *)
Definition len (v : value) : exn + Z :=
  match v with
  | VList l | VTuple l => inr (Z.of_nat (length l))
  | VStr s => inr (Z.of_nat (String.length s))
  | _ => inl TypeError
  end.

(** Indexing a sequence of [n] items at [i]: a negative index counts
    from the end, anything outside [-n .. n-1] raises [IndexError]. *)
Definition seq_index {A} (l : list A) (i : Z) : exn + A :=
  let n := Z.of_nat (length l) in
  let j := if i <? 0 then i + n else i in
  if (j <? 0) || (n <=? j) then inl IndexError
  else match l !! Z.to_nat j with
       | Some x => inr x
       | None => inl IndexError
       end.

(** [v[i]] for an integer [i] *)
Definition getitem (v : value) (i : Z) : exn + value :=
  match v with
  | VList l | VTuple l => seq_index l i
  | VStr s =>
      match seq_index (list_ascii_of_string s) i with
      | inr c => inr (VStr (String c EmptyString))
      | inl e => inl e
      end
  | _ => inl TypeError
  end.

(** A count that fits an index ([Py_ssize_t] of a 64-bit build). *)
Definition index_sized (n : Z) : bool :=
  (- 2 ^ 63 <=? n) && (n <? 2 ^ 63).

(** [[data] * number]: a count that is not index-sized raises
    [OverflowError]; a negative one gives the empty list.  Running out of
    memory for a large count is not modelled. *)
Definition repeat_list (data : value) (number : Z) : exn + value :=
  if index_sized number then inr (VList (replicate (Z.to_nat number) data))
  else inl OverflowError.

(** The integer a value stands for in integer arithmetic and where the
    framework expects an integer; booleans count as 0 and 1. *)
Definition as_int (v : value) : exn + Z :=
  match v with
  | VInt z => inr z
  | VBool b => inr (Z.b2z b)
  | _ => inl TypeError
  end.

(** [range(n)] *)
Definition range (n : Z) : list Z :=
  map Z.of_nat (seq 0 (Z.to_nat n)).

(** [str(i)] for an integer *)
Definition str (i : Z) : string := pretty i.

(** [d[k]] for a dict with string keys *)
Definition dict_getitem (d : gmap string value) (k : string) : exn + value :=
  match d !! k with
  | Some v => inr v
  | None => inl (KeyError k)
  end.

(** [v is None] *)
Definition is_None (v : value) : bool :=
  match v with VNone => true | _ => false end.

(** [isinstance(v, list)] *)
Definition isinstance_list (v : value) : bool :=
  match v with VList _ => true | _ => false end.

(** [a == b]: numbers compare by value, with [False] and [True] as 0 and
    1; strings, lists and tuples compare with their own kind, item by
    item; [None] equals only itself. *)
Fixpoint eqb (a b : value) {struct a} : bool :=
  let fix eqbs (l m : list value) {struct l} : bool :=
    match l, m with
    | [], [] => true
    | x :: l', y :: m' => eqb x y && eqbs l' m'
    | _, _ => false
    end in
  match a, b with
  | VNone, VNone => true
  | VBool x, VBool y => Bool.eqb x y
  | VBool x, VInt y => Z.b2z x =? y
  | VInt x, VBool y => x =? Z.b2z y
  | VInt x, VInt y => x =? y
  | VStr s, VStr t => String.eqb s t
  | VList l, VList m => eqbs l m
  | VTuple l, VTuple m => eqbs l m
  | _, _ => false
  end.

(** [x in l] for a list [l] *)
Definition list_contains (l : list value) (x : value) : bool :=
  existsb (eqb x) l.

End Py.

(** ** Module-level helpers *)

(** [check_data]: an [int] is broadcast to [number] copies; anything else
    must have length [number] (an [assert]) and is returned as it is. *)
Definition check_data (data : Py.value) (number : Z) : Py.exn + Py.value :=
  if Py.type_is_int data then Py.repeat_list data number
  else
    match Py.len data with
    | inl e => inl e
    | inr n => if n =? number then inr data else inl Py.AssertionError
    end.

Definition check_stride (s os : Z) : bool :=
  if s <=? os then true else false.

(** The per-variant table.  Each stage maps to the tuple
    (block count, strides, channels). *)
Definition xception_65_params : gmap string Py.value :=
  let I := Py.VInt in
  <["entry_flow" := Py.VTuple [I 3; Py.VList [I 2; I 2; I 2];
                               Py.VList [I 128; I 256; I 728]]]>
  (<["middle_flow" := Py.VTuple [I 16; I 1; I 728]]>
  (<["exit_flow" := Py.VTuple [I 2; Py.VList [I 2; I 1];
       Py.VList [Py.VList [I 728; I 1024; I 1024];
                 Py.VList [I 1536; I 1536; I 2048]]]]> ∅)).

Definition xception_41_params : gmap string Py.value :=
  let I := Py.VInt in
  <["entry_flow" := Py.VTuple [I 3; Py.VList [I 2; I 2; I 2];
                               Py.VList [I 128; I 256; I 728]]]>
  (<["middle_flow" := Py.VTuple [I 8; I 1; I 728]]>
  (<["exit_flow" := Py.VTuple [I 2; Py.VList [I 2; I 1];
       Py.VList [Py.VList [I 728; I 1024; I 1024];
                 Py.VList [I 1536; I 1536; I 2048]]]]> ∅)).

Definition xception_71_params : gmap string Py.value :=
  let I := Py.VInt in
  <["entry_flow" := Py.VTuple [I 5; Py.VList [I 2; I 1; I 2; I 1; I 2];
                               Py.VList [I 128; I 256; I 256; I 728; I 728]]]>
  (<["middle_flow" := Py.VTuple [I 16; I 1; I 728]]>
  (<["exit_flow" := Py.VTuple [I 2; Py.VList [I 2; I 1];
       Py.VList [Py.VList [I 728; I 1024; I 1024];
                 Py.VList [I 1536; I 1536; I 2048]]]]> ∅)).

Definition unsupported_backbone_error : string :=
  "xception backbont only support xception_41/xception_65/xception_71".

Definition gen_bottleneck_params (backbone : string)
  : Py.exn + gmap string Py.value :=
  if (backbone =? "xception_65")%string then inr xception_65_params
  else if (backbone =? "xception_41")%string then inr xception_41_params
  else if (backbone =? "xception_71")%string then inr xception_71_params
  else inl (Py.Exception unsupported_backbone_error).

(** ** Framework layers and tensors *)

Module Paddle.

Record Conv2D : Type := {
  in_channels : Z;
  out_channels : Z;
  kernel_size : Z;
  stride : Z;
  padding : Z;
  dilation : Z;
  groups : Z;
  weight_attr : string
}.

Record BatchNorm : Type := {
  num_channels : Z;
  act : option string;
  param_attr : string;
  bias_attr : string;
  moving_mean_name : string;
  moving_variance_name : string
}.

Record Linear : Type := {
  in_features : Z;
  out_features : Z;
  fc_weight_attr : string;
  fc_bias_attr : string
}.

(** A tensor is the term that computes it.  [TBatchNorm b x] stands for
    the framework's batch normalisation followed by the activation [act b]
    when there is one. *)
Inductive tensor : Type :=
| TInput (n : nat)
| TConv2D (c : Conv2D) (x : tensor)
| TBatchNorm (b : BatchNorm) (x : tensor)
| TRelu (x : tensor)
| TAdd (x y : tensor)
| TDropout (x : tensor)
| TAdaptiveAvgPool2D (x : tensor)
| TSqueeze (x : tensor)
| TLinear (l : Linear) (x : tensor).

End Paddle.

(** ** The layer objects of the module *)

Record ConvBNLayer : Type := {
  cb_conv : Paddle.Conv2D;
  cb_bn : Paddle.BatchNorm
}.

Record Seperate_Conv : Type := {
  sc_conv1 : Paddle.Conv2D;
  sc_bn1 : Paddle.BatchNorm;
  sc_conv2 : Paddle.Conv2D;
  sc_bn2 : Paddle.BatchNorm
}.

(** [xb_short] is [None] when the attribute [_short] was never set. *)
Record Xception_Block : Type := {
  xb_has_skip : bool;
  xb_skip_conv : bool;
  xb_activation_fn_in_separable_conv : bool;
  xb_conv1 : Seperate_Conv;
  xb_conv2 : Seperate_Conv;
  xb_conv3 : Seperate_Conv;
  xb_short : option ConvBNLayer
}.

(** The attributes of a finished [XceptionDeeplab]: [block_num],
    [strides] and [chns] hold what the exit-flow stage left in them. *)
Record XceptionDeeplab : Type := {
  xd_backbone : string;
  xd_conv1 : ConvBNLayer;
  xd_conv2 : ConvBNLayer;
  xd_block_num : Z;
  xd_strides : Py.value;
  xd_chns : Py.value;
  xd_entry_flow : list Xception_Block;
  xd_middle_flow : list Xception_Block;
  xd_stride : Z;
  xd_output_stride : Z;
  xd_exit_flow_1 : Xception_Block;
  xd_exit_flow_2 : Xception_Block;
  xd_fc : Paddle.Linear
}.

(** ** Effects: the log of collaborator calls *)

(** [StrideStep s requested effective s'] is written by every statement
    [s = s * stride]: [s] is the accumulator before it, [requested] the
    table's stride of the block, [effective] the value of [stride] and
    [s'] the accumulator after it. *)
Inductive call : Type :=
| NewConv2D (c : Paddle.Conv2D)
| NewBatchNorm (b : Paddle.BatchNorm)
| NewLinear (l : Paddle.Linear)
| NewDropout
| NewAdaptiveAvgPool2D
| StrideStep (s requested effective s' : Z)
| load_dygraph_pretrain_from_url
    (model : XceptionDeeplab) (url : string) (use_ssld : bool)
| load_dygraph_pretrain (model : XceptionDeeplab) (path : string).

Definition M (A : Type) : Type := ((Py.exn + A) * list call)%type.

#[global] Instance M_ret : MRet M := λ A a, (inr a, []).

#[global] Instance M_bind : MBind M := λ A B f m,
  match m with
  | (inl e, l) => (inl e, l)
  | (inr a, l) => let '(r, l') := f a in (r, l ++ l')
  end.

Definition lift {A} (r : Py.exn + A) : M A := (r, []).

Definition raise {A} (e : Py.exn) : M A := (inl e, []).

Definition emit (c : call) : M unit := (inr tt, [c]).

Definition result {A} (m : M A) : Py.exn + A := fst m.

Definition calls {A} (m : M A) : list call := snd m.

(** [for i in range(n)] with the loop-carried variables as a state *)
Fixpoint for_each {S} (body : Z → S → M S) (idx : list Z) (st : S) : M S :=
  match idx with
  | [] => mret st
  | i :: rest => st' ← body i st; for_each body rest st'
  end.

(** [v[i]] where the code goes on to use the item as an integer *)
Definition item_int (v : Py.value) (i : Z) : M Z :=
  lift (x ← Py.getitem v i; Py.as_int x).

(** Creating a framework layer logs the creation and returns the layer.
    The framework is taken to accept the arguments it is given: what its
    own constructors reject (a feature or channel count that is not
    positive, a size beyond its limits) is outside this model, so what is
    proved of a built model speaks of arguments the framework accepts. *)
Definition new_Conv2D (c : Paddle.Conv2D) : M Paddle.Conv2D :=
  _ ← emit (NewConv2D c); mret c.

Definition new_BatchNorm (b : Paddle.BatchNorm) : M Paddle.BatchNorm :=
  _ ← emit (NewBatchNorm b); mret b.

Definition new_Linear (l : Paddle.Linear) : M Paddle.Linear :=
  _ ← emit (NewLinear l); mret l.

(** ** ConvBNLayer *)

Definition ConvBNLayer_init
    (input_channels output_channels filter_size stride padding : Z)
    (act : option string) (name : string) : M ConvBNLayer :=
  _conv ← new_Conv2D {|
    Paddle.in_channels := input_channels;
    Paddle.out_channels := output_channels;
    Paddle.kernel_size := filter_size;
    Paddle.stride := stride;
    Paddle.padding := padding;
    Paddle.dilation := 1;
    Paddle.groups := 1;
    Paddle.weight_attr := name +:+ "/weights" |};
  _bn ← new_BatchNorm {|
    Paddle.num_channels := output_channels;
    Paddle.act := act;
    Paddle.param_attr := name +:+ "/BatchNorm/gamma";
    Paddle.bias_attr := name +:+ "/BatchNorm/beta";
    Paddle.moving_mean_name := name +:+ "/BatchNorm/moving_mean";
    Paddle.moving_variance_name := name +:+ "/BatchNorm/moving_variance" |};
  mret {| cb_conv := _conv; cb_bn := _bn |}.

Definition ConvBNLayer_forward (self : ConvBNLayer) (inputs : Paddle.tensor)
  : Paddle.tensor :=
  Paddle.TBatchNorm (cb_bn self) (Paddle.TConv2D (cb_conv self) inputs).

(** ** Seperate_Conv *)

Definition Seperate_Conv_init
    (input_channels output_channels stride filter dilation : Z)
    (act : option string) (name : string) : M Seperate_Conv :=
  _conv1 ← new_Conv2D {|
    Paddle.in_channels := input_channels;
    Paddle.out_channels := input_channels;
    Paddle.kernel_size := filter;
    Paddle.stride := stride;
    Paddle.padding := filter / 2 * dilation;
    Paddle.dilation := dilation;
    Paddle.groups := input_channels;
    Paddle.weight_attr := name +:+ "/depthwise/weights" |};
  _bn1 ← new_BatchNorm {|
    Paddle.num_channels := input_channels;
    Paddle.act := act;
    Paddle.param_attr := name +:+ "/depthwise/BatchNorm/gamma";
    Paddle.bias_attr := name +:+ "/depthwise/BatchNorm/beta";
    Paddle.moving_mean_name := name +:+ "/depthwise/BatchNorm/moving_mean";
    Paddle.moving_variance_name :=
      name +:+ "/depthwise/BatchNorm/moving_variance" |};
  _conv2 ← new_Conv2D {|
    Paddle.in_channels := input_channels;
    Paddle.out_channels := output_channels;
    Paddle.kernel_size := 1;
    Paddle.stride := 1;
    Paddle.padding := 0;
    Paddle.dilation := 1;
    Paddle.groups := 1;
    Paddle.weight_attr := name +:+ "/pointwise/weights" |};
  _bn2 ← new_BatchNorm {|
    Paddle.num_channels := output_channels;
    Paddle.act := act;
    Paddle.param_attr := name +:+ "/pointwise/BatchNorm/gamma";
    Paddle.bias_attr := name +:+ "/pointwise/BatchNorm/beta";
    Paddle.moving_mean_name := name +:+ "/pointwise/BatchNorm/moving_mean";
    Paddle.moving_variance_name :=
      name +:+ "/pointwise/BatchNorm/moving_variance" |};
  mret {| sc_conv1 := _conv1; sc_bn1 := _bn1;
          sc_conv2 := _conv2; sc_bn2 := _bn2 |}.

Definition Seperate_Conv_forward (self : Seperate_Conv)
    (inputs : Paddle.tensor) : Paddle.tensor :=
  let x := Paddle.TConv2D (sc_conv1 self) inputs in
  let x := Paddle.TBatchNorm (sc_bn1 self) x in
  let x := Paddle.TConv2D (sc_conv2 self) x in
  let x := Paddle.TBatchNorm (sc_bn2 self) x in
  x.

(** ** Xception_Block *)

(** [output_channels], [strides] and [filter_size] arrive as Python values:
    an [int] or a sequence.  Their items are used as integers by the
    framework's convolutions.  The two branches on
    [activation_fn_in_separable_conv] build the same three convolutions and
    differ only in the [act] argument, bound once here. *)
Definition Xception_Block_init
    (input_channels : Z) (output_channels strides filter_size : Py.value)
    (dilation : Z) (skip_conv has_skip activation_fn_in_separable_conv : bool)
    (name : string) : M Xception_Block :=
  let repeat_number := 3 in
  output_channels ← lift (check_data output_channels repeat_number);
  filter_size ← lift (check_data filter_size repeat_number);
  strides ← lift (check_data strides repeat_number);
  let act :=
    if negb activation_fn_in_separable_conv then None else Some "relu" in
  oc0 ← item_int output_channels 0;
  st0 ← item_int strides 0;
  fs0 ← item_int filter_size 0;
  _conv1 ← Seperate_Conv_init input_channels oc0 st0 fs0 dilation act
             (name +:+ "/separable_conv1");
  oc0 ← item_int output_channels 0;
  oc1 ← item_int output_channels 1;
  st1 ← item_int strides 1;
  fs1 ← item_int filter_size 1;
  _conv2 ← Seperate_Conv_init oc0 oc1 st1 fs1 dilation act
             (name +:+ "/separable_conv2");
  oc1 ← item_int output_channels 1;
  oc2 ← item_int output_channels 2;
  st2 ← item_int strides 2;
  fs2 ← item_int filter_size 2;
  _conv3 ← Seperate_Conv_init oc1 oc2 st2 fs2 dilation act
             (name +:+ "/separable_conv3");
  _short ←
    (if has_skip && skip_conv then
       oc_last ← item_int output_channels (-1);
       st_last ← item_int strides (-1);
       sh ← ConvBNLayer_init input_channels oc_last 1 st_last 0 None
              (name +:+ "/shortcut");
       mret (Some sh)
     else mret None);
  mret {| xb_has_skip := has_skip;
          xb_skip_conv := skip_conv;
          xb_activation_fn_in_separable_conv :=
            activation_fn_in_separable_conv;
          xb_conv1 := _conv1; xb_conv2 := _conv2; xb_conv3 := _conv3;
          xb_short := _short |}.

Definition Xception_Block_forward (self : Xception_Block)
    (inputs : Paddle.tensor) : Py.exn + Paddle.tensor :=
  let x :=
    if negb (xb_activation_fn_in_separable_conv self) then
      let x := Paddle.TRelu inputs in
      let x := Seperate_Conv_forward (xb_conv1 self) x in
      let x := Paddle.TRelu x in
      let x := Seperate_Conv_forward (xb_conv2 self) x in
      let x := Paddle.TRelu x in
      Seperate_Conv_forward (xb_conv3 self) x
    else
      let x := Seperate_Conv_forward (xb_conv1 self) inputs in
      let x := Seperate_Conv_forward (xb_conv2 self) x in
      Seperate_Conv_forward (xb_conv3 self) x in
  if xb_has_skip self then
    match
      (if xb_skip_conv self then
         match xb_short self with
         | Some short => inr (ConvBNLayer_forward short inputs)
         | None => inl (Py.AttributeError "_short")
         end
       else inr inputs)
    with
    | inr skip => inr (Paddle.TAdd x skip)
    | inl e => inl e
    end
  else inr x.

(** ** XceptionDeeplab *)

(** The stride a block is meant to use: the requested one when the
    accumulator stays within [output_stride], 1 otherwise.  The source
    writes this conditional expression out at each of its four uses. *)
Definition clipped_stride (s requested output_stride : Z) : Z :=
  if check_stride (s * requested) output_stride then requested else 1.

(** One of the three stage headers: [block_num], [strides] and [chns] are
    read from the table entry and the last two normalised. *)
Definition read_stage (bottleneck_params : gmap string Py.value)
    (stage : string) : M (Z * Py.value * Py.value) :=
  entry ← lift (Py.dict_getitem bottleneck_params stage);
  block_num ← item_int entry 0;
  strides ← lift (Py.getitem entry 1);
  chns ← lift (Py.getitem entry 2);
  strides ← lift (check_data strides block_num);
  chns ← lift (check_data chns block_num);
  mret (block_num, strides, chns).

(** Body of the entry-flow loop.  The loop-carried state is the list
    [self.entry_flow] and the local [s]; [self_stride] is the attribute
    [self.stride], which the loop reads and never assigns. *)
Definition entry_flow_body (backbone : string) (strides chns : Py.value)
    (self_stride output_stride : Z) (i : Z)
    (st : list Xception_Block * Z) : M (list Xception_Block * Z) :=
  let '(entry_flow, s) := st in
  requested ← item_int strides i;
  let stride := clipped_stride s requested output_stride in
  input_channels ← (if i =? 0 then mret 64 else item_int chns (i - 1));
  output_channels ← lift (Py.getitem chns i);
  xception_block ← Xception_Block_init
    input_channels output_channels
    (Py.VList [Py.VInt 1; Py.VInt 1; Py.VInt self_stride])
    (Py.VInt 3) 1 true true false
    (backbone +:+ "/entry_flow/block" +:+ Py.str (i + 1));
  _ ← emit (StrideStep s requested stride (s * stride));
  mret (entry_flow ++ [xception_block], s * stride).

(** Body of the middle-flow loop. *)
Definition middle_flow_body (backbone : string) (strides : Py.value)
    (output_stride : Z) (i : Z)
    (st : list Xception_Block * Z) : M (list Xception_Block * Z) :=
  let '(middle_flow, s) := st in
  requested ← item_int strides i;
  let stride := clipped_stride s requested output_stride in
  strides_i ← lift (Py.getitem strides i);
  xception_block ← Xception_Block_init
    728 (Py.VInt 728)
    (Py.VList [Py.VInt 1; Py.VInt 1; strides_i])
    (Py.VInt 3) 1 false true false
    (backbone +:+ "/middle_flow/block" +:+ Py.str (i + 1));
  _ ← emit (StrideStep s requested stride (s * stride));
  mret (middle_flow ++ [xception_block], s * stride).

(** The two exit-flow blocks, built one after the other from the
    normalised [strides] and [chns] of the exit-flow stage and the
    accumulator [s] that the middle flow left; returns the two blocks and
    the accumulator after them. *)
Definition exit_flow_init (backbone : string) (strides chns : Py.value)
    (output_stride : Z) (s : Z) : M (Xception_Block * Xception_Block * Z) :=
  requested ← item_int strides 0;
  let stride := clipped_stride s requested output_stride in
  chns_0 ← lift (Py.getitem chns 0);
  _exit_flow_1 ← Xception_Block_init
    728 chns_0 (Py.VList [Py.VInt 1; Py.VInt 1; Py.VInt stride])
    (Py.VInt 3) 1 true true false
    (backbone +:+ "/exit_flow/block1");
  _ ← emit (StrideStep s requested stride (s * stride));
  let s := s * stride in
  requested ← item_int strides 1;
  let stride := clipped_stride s requested output_stride in
  chns_0 ← lift (Py.getitem chns 0);
  chns_0_last ← item_int chns_0 (-1);
  chns_1 ← lift (Py.getitem chns 1);
  _exit_flow_2 ← Xception_Block_init
    chns_0_last chns_1 (Py.VList [Py.VInt 1; Py.VInt 1; Py.VInt stride])
    (Py.VInt 3) 2 true false true
    (backbone +:+ "/exit_flow/block2");
  _ ← emit (StrideStep s requested stride (s * stride));
  let s := s * stride in
  mret (_exit_flow_1, _exit_flow_2, s).

Definition XceptionDeeplab_init (backbone : string) (class_dim : Z)
  : M XceptionDeeplab :=
  bottleneck_params ← lift (gen_bottleneck_params backbone);
  _conv1 ← ConvBNLayer_init 3 32 3 2 1 (Some "relu")
             (backbone +:+ "/entry_flow/conv1");
  _conv2 ← ConvBNLayer_init 32 64 3 1 1 (Some "relu")
             (backbone +:+ "/entry_flow/conv2");
  (* entry flow *)
  '(block_num, strides, chns) ← read_stage bottleneck_params "entry_flow";
  let self_stride := 2 in
  let output_stride := 32 in
  let s := self_stride in
  '(entry_flow, s) ←
    for_each (entry_flow_body backbone strides chns self_stride output_stride)
             (Py.range block_num) ([], s);
  let self_stride := s in
  (* middle flow *)
  '(block_num, strides, chns) ← read_stage bottleneck_params "middle_flow";
  let s := self_stride in
  '(middle_flow, s) ←
    for_each (middle_flow_body backbone strides output_stride)
             (Py.range block_num) ([], s);
  let self_stride := s in
  (* exit flow *)
  '(block_num, strides, chns) ← read_stage bottleneck_params "exit_flow";
  let s := self_stride in
  '(_exit_flow_1, _exit_flow_2, s) ←
    exit_flow_init backbone strides chns output_stride s;
  let self_stride := s in
  (* head *)
  _ ← emit NewDropout;
  _ ← emit NewAdaptiveAvgPool2D;
  chns_1 ← lift (Py.getitem chns 1);
  chns_1_last ← item_int chns_1 (-1);
  _fc ← new_Linear {|
    Paddle.in_features := chns_1_last;
    Paddle.out_features := class_dim;
    Paddle.fc_weight_attr := "fc_weights";
    Paddle.fc_bias_attr := "fc_bias" |};
  mret {| xd_backbone := backbone;
          xd_conv1 := _conv1; xd_conv2 := _conv2;
          xd_block_num := block_num;
          xd_strides := strides; xd_chns := chns;
          xd_entry_flow := entry_flow; xd_middle_flow := middle_flow;
          xd_stride := self_stride; xd_output_stride := output_stride;
          xd_exit_flow_1 := _exit_flow_1; xd_exit_flow_2 := _exit_flow_2;
          xd_fc := _fc |}.

Fixpoint forward_blocks (blocks : list Xception_Block) (x : Paddle.tensor)
  : Py.exn + Paddle.tensor :=
  match blocks with
  | [] => inr x
  | b :: rest =>
      match Xception_Block_forward b x with
      | inr x' => forward_blocks rest x'
      | inl e => inl e
      end
  end.

Definition XceptionDeeplab_forward (self : XceptionDeeplab)
    (inputs : Paddle.tensor) : Py.exn + Paddle.tensor :=
  let x := ConvBNLayer_forward (xd_conv1 self) inputs in
  let x := ConvBNLayer_forward (xd_conv2 self) x in
  x ← forward_blocks (xd_entry_flow self) x;
  x ← forward_blocks (xd_middle_flow self) x;
  x ← Xception_Block_forward (xd_exit_flow_1 self) x;
  x ← Xception_Block_forward (xd_exit_flow_2 self) x;
  let x := Paddle.TDropout x in
  let x := Paddle.TAdaptiveAvgPool2D x in
  let x := Paddle.TSqueeze x in
  let x := Paddle.TLinear (xd_fc self) x in
  inr x.

(** ** Pretrained weights and the factory functions *)

(** The dict [MODEL_URLS], in the order its keys were inserted. *)
Definition MODEL_URLS : list (string * string) :=
  [ ("Xception41_deeplab",
     "https://paddle-imagenet-models-name.bj.bcebos.com/dygraph/Xception41_deeplab_pretrained.pdparams");
    ("Xception65_deeplab",
     "https://paddle-imagenet-models-name.bj.bcebos.com/dygraph/Xception65_deeplab_pretrained.pdparams") ].

(** [__all__ = list(MODEL_URLS.keys())] *)
Definition __all__ : list string := map fst MODEL_URLS.

(** [MODEL_URLS[k]] *)
Fixpoint urls_getitem (d : list (string * string)) (k : string)
  : Py.exn + string :=
  match d with
  | [] => inl (Py.KeyError k)
  | (k', v) :: rest => if (k' =? k)%string then inr v else urls_getitem rest k
  end.

Definition pretrained_type_error : string :=
  "pretrained type is not available. Please use `string` or `boolean` type.".

Definition _load_pretrained (pretrained : Py.value) (model : XceptionDeeplab)
    (model_url : string) (use_ssld : bool) : M unit :=
  if Py.is_False pretrained then mret tt
  else if Py.is_True pretrained then
    emit (load_dygraph_pretrain_from_url model model_url use_ssld)
  else
    match pretrained with
    | Py.VStr path (* isinstance(pretrained, str) *) =>
        emit (load_dygraph_pretrain model path)
    | _ => raise (Py.RuntimeError pretrained_type_error)
    end.

Definition Xception41_deeplab (pretrained : Py.value) (use_ssld : bool)
    (class_dim : Z) : M XceptionDeeplab :=
  model ← XceptionDeeplab_init "xception_41" class_dim;
  url ← lift (urls_getitem MODEL_URLS "Xception41_deeplab");
  _ ← _load_pretrained pretrained model url use_ssld;
  mret model.

Definition Xception65_deeplab (pretrained : Py.value) (use_ssld : bool)
    (class_dim : Z) : M XceptionDeeplab :=
  model ← XceptionDeeplab_init "xception_65" class_dim;
  url ← lift (urls_getitem MODEL_URLS "Xception65_deeplab");
  _ ← _load_pretrained pretrained model url use_ssld;
  mret model.

(** The factory functions the module defines, by name. *)
Definition factories
  : list (string * (Py.value → bool → Z → M XceptionDeeplab)) :=
  [ ("Xception41_deeplab", Xception41_deeplab);
    ("Xception65_deeplab", Xception65_deeplab) ].

(** The backbone names [gen_bottleneck_params] has a table for. *)
Definition supported_backbones : list string :=
  [ "xception_41"; "xception_65"; "xception_71" ].

(** ** Observations on built objects and on logs *)

(** The three strides a block was given, read back from the depthwise
    convolutions of its three separable convolutions. *)
Definition xb_strides (b : Xception_Block) : list Z :=
  [ Paddle.stride (sc_conv1 (xb_conv1 b));
    Paddle.stride (sc_conv1 (xb_conv2 b));
    Paddle.stride (sc_conv1 (xb_conv3 b)) ].

(** The output channels of a block: those of its last pointwise
    convolution. *)
Definition xb_out_channels (b : Xception_Block) : Z :=
  Paddle.out_channels (sc_conv2 (xb_conv3 b)).

Definition xb_dilations (b : Xception_Block) : list Z :=
  [ Paddle.dilation (sc_conv1 (xb_conv1 b));
    Paddle.dilation (sc_conv1 (xb_conv2 b));
    Paddle.dilation (sc_conv1 (xb_conv3 b)) ].

(** The activations inside the three separable convolutions of a block,
    two batch-norm stages each. *)
Definition xb_acts (b : Xception_Block) : list (option string) :=
  [ Paddle.act (sc_bn1 (xb_conv1 b)); Paddle.act (sc_bn2 (xb_conv1 b));
    Paddle.act (sc_bn1 (xb_conv2 b)); Paddle.act (sc_bn2 (xb_conv2 b));
    Paddle.act (sc_bn1 (xb_conv3 b)); Paddle.act (sc_bn2 (xb_conv3 b)) ].

Definition is_loader (c : call) : bool :=
  match c with
  | load_dygraph_pretrain_from_url _ _ _ | load_dygraph_pretrain _ _ => true
  | _ => false
  end.

Definition loader_calls (log : list call) : list call :=
  List.filter is_loader log.

(** The accumulator updates of a log, in order:
    (before, requested, effective, after). *)
Fixpoint stride_steps (log : list call) : list (Z * Z * Z * Z) :=
  match log with
  | [] => []
  | StrideStep s r e s' :: rest => (s, r, e, s') :: stride_steps rest
  | _ :: rest => stride_steps rest
  end.

(** Every update starts from the value the previous one left (from [s]
    for the first), uses the clipped stride, and stays within [os]. *)
Fixpoint steps_within (os s : Z) (steps : list (Z * Z * Z * Z)) : bool :=
  match steps with
  | [] => true
  | (s0, r, e, s') :: rest =>
      (s0 =? s) && (e =? (if s * r <=? os then r else 1)) && (s' =? s * e)
      && (s' <=? os) && steps_within os s' rest
  end.

(** The same as a proposition on the whole list. *)
Inductive StepsWithin (os : Z) : Z → list (Z * Z * Z * Z) → Prop :=
| SW_nil s : StepsWithin os s []
| SW_cons s r rest :
    let e := if s * r <=? os then r else 1 in
    s * e <= os →
    StepsWithin os (s * e) rest →
    StepsWithin os s ((s, r, e, s * e) :: rest).

(** The value a computation returned, if it did not raise. *)
Definition built {A} (m : M A) : option A :=
  match result m with inr a => Some a | inl _ => None end.

(** A computation that writes no accumulator update. *)
Definition quiet {A} (m : M A) : Prop := stride_steps (calls m) = [].

(** One run of a loop body from the state [(acc, s)]: when it returns, it
    has appended one block, multiplied the accumulator by the clipped
    stride of some requested stride and logged exactly that update; when
    it raises, it has logged no update. *)
Definition clipping_run (os : Z) (acc : list Xception_Block) (s : Z)
    (m : M (list Xception_Block * Z)) : Prop :=
  (∃ e, result m = inl e ∧ quiet m) ∨
  (∃ blk r,
      let e := clipped_stride s r os in
      result m = inr (acc ++ [blk], s * e) ∧
      stride_steps (calls m) = [(s, r, e, s * e)]).

Definition clipping_body (os : Z)
    (body : Z → list Xception_Block * Z → M (list Xception_Block * Z))
  : Prop :=
  ∀ i acc s, clipping_run os acc s (body i (acc, s)).

(** Following the spec's words (section 4.4, steps 1, 2 and 4): the
    effective stride of each block of a stage, from the accumulator [s] at
    the start of the stage and the stage's nominal strides. *)
Fixpoint spec_effective_strides (os s : Z) (strides : list Z) : list Z :=
  match strides with
  | [] => []
  | r :: rest =>
      let e := if s * r <=? os then r else 1 in
      e :: spec_effective_strides os (s * e) rest
  end.

(** The module exposes a factory for [backbone]: one of its factory
    functions, listed in [__all__] with a registered URL, returns the model
    that [XceptionDeeplab(backbone, class_dim)] builds, after no loader
    call for [pretrained=False], one call of the URL loader with the
    registered URL for [pretrained=True], and one call of the local-path
    loader for a string. *)
Definition exposes_factory_for (backbone : string) : Prop :=
  ∃ name factory url,
    In (name, factory) factories ∧ In name __all__ ∧
    urls_getitem MODEL_URLS name = inr url ∧
    ∀ use_ssld class_dim,
    ∃ model,
      result (XceptionDeeplab_init backbone class_dim) = inr model ∧
      (result (factory (Py.VBool false) use_ssld class_dim) = inr model ∧
       loader_calls (calls (factory (Py.VBool false) use_ssld class_dim))
         = []) ∧
      (result (factory (Py.VBool true) use_ssld class_dim) = inr model ∧
       loader_calls (calls (factory (Py.VBool true) use_ssld class_dim))
         = [load_dygraph_pretrain_from_url model url use_ssld]) ∧
      (∀ path,
         result (factory (Py.VStr path) use_ssld class_dim) = inr model ∧
         loader_calls (calls (factory (Py.VStr path) use_ssld class_dim))
           = [load_dygraph_pretrain model path]).

(** [bottleneck_params[stage][0]] as an integer *)
Definition table_block_num (params : gmap string Py.value) (stage : string)
  : Py.exn + Z :=
  entry ← Py.dict_getitem params stage;
  x ← Py.getitem entry 0;
  Py.as_int x.

(** [bottleneck_params["exit_flow"][2][1][-1]] as an integer *)
Definition table_exit_last_channels (params : gmap string Py.value)
  : Py.exn + Z :=
  entry ← Py.dict_getitem params "exit_flow";
  chns ← Py.getitem entry 2;
  chns_1 ← Py.getitem chns 1;
  x ← Py.getitem chns_1 (-1);
  Py.as_int x.

(** The effective strides a log recorded, in order. *)
Definition logged_effective_strides (log : list call) : list Z :=
  map (λ '(_, _, e, _), e) (stride_steps log).

(** A sequence whose length is not the three that [Xception_Block]
    asks for. *)
Definition wrong_length (v : Py.value) : Prop :=
  ∃ l, (v = Py.VList l ∨ v = Py.VTuple l) ∧ length l ≠ 3%nat.

(** What [check_data] accepts with count 3: an [int], or a list or tuple
    of three items. *)
Definition fits3 (v : Py.value) : Prop :=
  (∃ z, v = Py.VInt z) ∨
  (∃ l, (v = Py.VList l ∨ v = Py.VTuple l) ∧ length l = 3%nat).

(** ** Further observations *)

(** [check_points]: [False] for [None], membership for a list, equality
    for anything else. *)
Definition check_points (count points : Py.value) : bool :=
  if Py.is_None points then false
  else
    match points with
    | Py.VList l => if Py.list_contains l count then true else false
    | _ => if Py.eqb count points then true else false
    end.

(** A separable convolution as [Seperate_Conv] builds it for dilation
    [d]: a depthwise convolution that keeps the channel count, padded by
    [kernel_size // 2 * d], then a 1x1 pointwise convolution, each with a
    batch norm over its output channels. *)
Definition separable (d : Z) (sc : Seperate_Conv) : Prop :=
  let dw := sc_conv1 sc in
  let pw := sc_conv2 sc in
  Paddle.out_channels dw = Paddle.in_channels dw ∧
  Paddle.groups dw = Paddle.in_channels dw ∧
  Paddle.dilation dw = d ∧
  Paddle.padding dw = Paddle.kernel_size dw / 2 * d ∧
  Paddle.num_channels (sc_bn1 sc) = Paddle.in_channels dw ∧
  Paddle.in_channels pw = Paddle.in_channels dw ∧
  Paddle.kernel_size pw = 1 ∧ Paddle.stride pw = 1 ∧
  Paddle.padding pw = 0 ∧ Paddle.groups pw = 1 ∧
  Paddle.num_channels (sc_bn2 sc) = Paddle.out_channels pw.

Definition sc_in_channels (sc : Seperate_Conv) : Z :=
  Paddle.in_channels (sc_conv1 sc).

Definition sc_out_channels (sc : Seperate_Conv) : Z :=
  Paddle.out_channels (sc_conv2 sc).

Definition xb_in_channels (b : Xception_Block) : Z :=
  sc_in_channels (xb_conv1 b).

(** The framework layers a block holds, as creation events in the order
    of the constructor. *)
Definition Seperate_Conv_layers (sc : Seperate_Conv) : list call :=
  [ NewConv2D (sc_conv1 sc); NewBatchNorm (sc_bn1 sc);
    NewConv2D (sc_conv2 sc); NewBatchNorm (sc_bn2 sc) ].

Definition ConvBNLayer_layers (cb : ConvBNLayer) : list call :=
  [ NewConv2D (cb_conv cb); NewBatchNorm (cb_bn cb) ].

Definition Xception_Block_layers (b : Xception_Block) : list call :=
  Seperate_Conv_layers (xb_conv1 b) ++ Seperate_Conv_layers (xb_conv2 b) ++
  Seperate_Conv_layers (xb_conv3 b) ++
  match xb_short b with
  | Some short => ConvBNLayer_layers short
  | None => []
  end.

(** The forward pass of a block can read [_short] whenever it needs it. *)
Definition has_short_when_read (b : Xception_Block) : bool :=
  if xb_has_skip b && xb_skip_conv b
  then match xb_short b with Some _ => true | None => false end
  else true.

(** The blocks of a model in the order the forward pass applies them. *)
Definition xd_blocks (m : XceptionDeeplab) : list Xception_Block :=
  xd_entry_flow m ++ xd_middle_flow m ++ [xd_exit_flow_1 m; xd_exit_flow_2 m].

(** (input channels, output channels) of every stage of the forward pass,
    from the first stem convolution to the classifier. *)
Definition xd_channels (m : XceptionDeeplab) : list (Z * Z) :=
  map (λ cb, (Paddle.in_channels (cb_conv cb), Paddle.out_channels (cb_conv cb)))
      [xd_conv1 m; xd_conv2 m] ++
  map (λ b, (xb_in_channels b, xb_out_channels b)) (xd_blocks m) ++
  [(Paddle.in_features (xd_fc m), Paddle.out_features (xd_fc m))].

(** Each stage takes the channels the previous one produced, from [c]
    on; the result is the channel count after the last stage. *)
Fixpoint channels_chain (c : Z) (stages : list (Z * Z)) : option Z :=
  match stages with
  | [] => Some c
  | (i, o) :: rest => if i =? c then channels_chain o rest else None
  end.

(** A block whose skip path is the input itself adds two tensors of the
    same shape only if it keeps the channel count and does not stride. *)
Definition identity_skip_fits (b : Xception_Block) : bool :=
  if xb_has_skip b && negb (xb_skip_conv b)
  then (xb_in_channels b =? xb_out_channels b)
       && forallb (Z.eqb 1) (xb_strides b)
  else true.

(** The downsampling factor of the layers as built: the product of the
    strides of the two stem convolutions and of the three separable
    convolutions of every block. *)
Definition built_stride (m : XceptionDeeplab) : Z :=
  fold_left Z.mul
    ([Paddle.stride (cb_conv (xd_conv1 m)); Paddle.stride (cb_conv (xd_conv2 m))]
     ++ concat (map xb_strides (xd_blocks m)))
    1.

(** The parameter names a log of layer creations mentions. *)
Definition param_names_of (c : call) : list string :=
  match c with
  | NewConv2D c => [Paddle.weight_attr c]
  | NewBatchNorm b =>
      [Paddle.param_attr b; Paddle.bias_attr b;
       Paddle.moving_mean_name b; Paddle.moving_variance_name b]
  | NewLinear l => [Paddle.fc_weight_attr l; Paddle.fc_bias_attr l]
  | _ => []
  end.

Definition param_names (log : list call) : list string :=
  concat (map param_names_of log).

(** No name occurs twice. *)
Fixpoint distinct_names (names : list string) : bool :=
  match names with
  | [] => true
  | n :: rest => negb (existsb (String.eqb n) rest) && distinct_names rest
  end.

(** The strides a stage of the table requests, block by block: the
    items of its normalised [strides], as the loops read them. *)
Definition stage_strides (params : gmap string Py.value) (stage : string)
  : Py.exn + list Z :=
  '(block_num, strides, _) ← result (read_stage params stage);
  mapM (λ i, x ← Py.getitem strides i; Py.as_int x) (Py.range block_num).

(** The requested strides of all blocks, in the order they are built. *)
Definition table_requested_strides (params : gmap string Py.value)
  : Py.exn + list Z :=
  entry ← stage_strides params "entry_flow";
  middle ← stage_strides params "middle_flow";
  exit ← stage_strides params "exit_flow";
  mret (entry ++ middle ++ exit).

(** ** The monad *)

Lemma result_bind {A B} (m : M A) (f : A → M B) :
  result (m ≫= f) =
  match result m with inr a => result (f a) | inl e => inl e end.
Proof.
  destruct m as [[e|a] l]; cbn; [reflexivity|].
  destruct (f a); reflexivity.
Qed.

Lemma calls_bind {A B} (m : M A) (f : A → M B) :
  calls (m ≫= f) =
  calls m ++ match result m with inr a => calls (f a) | inl _ => [] end.
Proof.
  destruct m as [[e|a] l]; cbn.
  - now rewrite app_nil_r.
  - destruct (f a); reflexivity.
Qed.

Lemma bind_inr {A B} (m : M A) (f : A → M B) (b : B) (l : list call) :
  m ≫= f = (inr b, l) →
  ∃ a l1 l2, m = (inr a, l1) ∧ f a = (inr b, l2) ∧ l = l1 ++ l2.
Proof.
  destruct m as [[e|a] l1]; cbn; [discriminate|].
  destruct (f a) as [r l2] eqn:E. intros [= -> <-].
  exists a, l1, l2. auto.
Qed.

Lemma bind_inl {A B} (m : M A) (f : A → M B) (e : Py.exn) :
  m = (inl e, []) → m ≫= f = (inl e, []).
Proof. now intros ->. Qed.

Lemma lift_inr {A} (r : Py.exn + A) (a : A) (l : list call) :
  lift r = (inr a, l) → r = inr a ∧ l = [].
Proof. now intros [= -> <-]. Qed.

Lemma stride_steps_app (l1 l2 : list call) :
  stride_steps (l1 ++ l2) = stride_steps l1 ++ stride_steps l2.
Proof.
  induction l1 as [|c l1 IH]; [reflexivity|].
  destruct c; cbn; rewrite ?IH; reflexivity.
Qed.

Lemma loader_calls_app (l1 l2 : list call) :
  loader_calls (l1 ++ l2) = loader_calls l1 ++ loader_calls l2.
Proof. apply List.filter_app. Qed.

Lemma quiet_ret {A} (a : A) : quiet (mret a : M A).
Proof. reflexivity. Qed.

Lemma quiet_lift {A} (r : Py.exn + A) : quiet (lift r).
Proof. reflexivity. Qed.

Lemma quiet_bind {A B} (m : M A) (f : A → M B) :
  quiet m → (∀ a, quiet (f a)) → quiet (m ≫= f).
Proof.
  unfold quiet. intros Hm Hf. rewrite calls_bind, stride_steps_app, Hm.
  destruct (result m); [reflexivity|apply Hf].
Qed.

Lemma quiet_ConvBNLayer_init ic oc fs st pad act name :
  quiet (ConvBNLayer_init ic oc fs st pad act name).
Proof. reflexivity. Qed.

Lemma quiet_Seperate_Conv_init ic oc st f d act name :
  quiet (Seperate_Conv_init ic oc st f d act name).
Proof. reflexivity. Qed.

Create HintDb quiet.

#[local] Hint Resolve quiet_ret quiet_lift quiet_ConvBNLayer_init
  quiet_Seperate_Conv_init : quiet.

Lemma quiet_item_int v i : quiet (item_int v i).
Proof. apply quiet_lift. Qed.

#[local] Hint Resolve quiet_item_int : quiet.

Ltac quiet_steps :=
  repeat first
    [ apply quiet_bind; [solve [auto with quiet]|intros]
    | solve [auto with quiet] ].

Lemma quiet_Xception_Block_init ic oc st fs d sc hs act name :
  quiet (Xception_Block_init ic oc st fs d sc hs act name).
Proof.
  unfold Xception_Block_init. quiet_steps.
  apply quiet_bind; [|intros; apply quiet_ret].
  destruct (hs && sc); quiet_steps.
Qed.

(** ** The stride accumulator in the two loops *)

Lemma clipped_stride_within (os s r : Z) :
  s <= os → s * clipped_stride s r os <= os.
Proof.
  unfold clipped_stride, check_stride. intros Hs.
  destruct (s * r <=? os) eqn:E; [apply Z.leb_le in E|]; lia.
Qed.

Lemma clipping_run_bind {A} os acc s (m : M A)
    (f : A → M (list Xception_Block * Z)) :
  quiet m → (∀ a, clipping_run os acc s (f a)) →
  clipping_run os acc s (m ≫= f).
Proof.
  unfold clipping_run, quiet. intros Hm Hf.
  rewrite result_bind, calls_bind, stride_steps_app, Hm.
  destruct (result m) as [e|a]; [left; eauto|apply Hf].
Qed.

Lemma entry_flow_body_clipping backbone strides chns self_stride os :
  clipping_body os (entry_flow_body backbone strides chns self_stride os).
Proof.
  intros i acc s. unfold entry_flow_body.
  apply clipping_run_bind; [auto with quiet|intros requested].
  apply clipping_run_bind; [destruct (i =? 0); auto with quiet|intros ic].
  apply clipping_run_bind; [auto with quiet|intros oc].
  apply clipping_run_bind; [apply quiet_Xception_Block_init|intros blk].
  right. exists blk, requested. split; reflexivity.
Qed.

Lemma middle_flow_body_clipping backbone strides os :
  clipping_body os (middle_flow_body backbone strides os).
Proof.
  intros i acc s. unfold middle_flow_body.
  apply clipping_run_bind; [auto with quiet|intros requested].
  apply clipping_run_bind; [auto with quiet|intros strides_i].
  apply clipping_run_bind; [apply quiet_Xception_Block_init|intros blk].
  right. exists blk, requested. split; reflexivity.
Qed.

(** Whatever the table holds, a loop that starts within the bound logs
    only clipped updates that stay within it, each starting where the
    previous one ended; this holds for a loop that raises as well, for the
    updates it made before. *)
Lemma for_each_steps_within os body :
  clipping_body os body →
  ∀ idx acc s, s <= os →
    StepsWithin os s (stride_steps (calls (for_each body idx (acc, s)))) ∧
    ∀ acc' s', result (for_each body idx (acc, s)) = inr (acc', s') →
               s' <= os ∧ length acc' = (length acc + length idx)%nat.
Proof.
  intros Hbody idx. induction idx as [|i rest IH]; intros acc s Hs.
  - cbn. split; [constructor|]. intros acc' s' [= <- <-]. split; [lia|].
    now rewrite Nat.add_0_r.
  - cbn [for_each]. rewrite result_bind, calls_bind, stride_steps_app.
    destruct (Hbody i acc s) as [(e & Hr & Hq)|(blk & r & Hr & Hl)].
    + rewrite Hr, Hq. cbn. split; [constructor|discriminate].
    + cbn zeta in Hr, Hl. rewrite Hr, Hl.
      pose proof (clipped_stride_within os s r Hs) as Hs'.
      destruct (IH (acc ++ [blk]) _ Hs') as [IH1 IH2]. split.
      * cbn [app]. unfold clipped_stride, check_stride in *.
        replace (if if s * r <=? os then true else false then r else 1)
          with (if s * r <=? os then r else 1) in *
          by (destruct (s * r <=? os); reflexivity).
        now constructor.
      * intros acc' s' H. destruct (IH2 _ _ H) as [H1 H2]. split; [exact H1|].
        rewrite H2, length_app. cbn. lia.
Qed.

Lemma steps_within_sound os steps :
  ∀ s, steps_within os s steps = true → StepsWithin os s steps.
Proof.
  induction steps as [|[[[s0 r] e] s'] rest IH]; intros s H; [constructor|].
  cbn in H. repeat (apply andb_prop in H as [H ?]).
  apply Z.eqb_eq in H as ->.
  match goal with E : (e =? _) = true |- _ => apply Z.eqb_eq in E as -> end.
  match goal with E : (s' =? _) = true |- _ => apply Z.eqb_eq in E as -> end.
  match goal with E : (_ <=? os) = true |- _ => apply Z.leb_le in E end.
  constructor; auto.
Qed.

Lemma StepsWithin_bounded os steps :
  ∀ s, s <= os → StepsWithin os s steps →
       Forall (λ '(s0, _, _, s'), s0 <= os ∧ s' <= os) steps.
Proof.
  induction steps as [|st rest IH]; intros s Hs H; [constructor|].
  inversion H; subst. constructor; [split; assumption|].
  eapply IH; [|eassumption]. assumption.
Qed.

(** ** [check_data] with count 3 *)

Lemma check_data_int (v : Z) :
  check_data (Py.VInt v) 3 = inr (Py.VList [Py.VInt v; Py.VInt v; Py.VInt v]).
Proof. reflexivity. Qed.

Lemma check_data_fits3 (v : Py.value) :
  fits3 v → ∃ v', check_data v 3 = inr v'.
Proof.
  intros [[z ->]|(l & [-> | ->] & Hl)]; unfold check_data; cbn;
    rewrite ?Hl; cbn; eauto.
Qed.

Lemma check_data_wrong_length (v : Py.value) :
  wrong_length v → check_data v 3 = inl Py.AssertionError.
Proof.
  intros (l & [-> | ->] & Hl); unfold check_data; cbn;
    (destruct (Z.of_nat (length l) =? 3) eqn:E; [|reflexivity]);
    apply Z.eqb_eq in E; lia.
Qed.

(** After normalisation the item at index -1 is the item at index 2. *)
Lemma check_data_last (v v' : Py.value) :
  check_data v 3 = inr v' → Py.getitem v' (-1) = Py.getitem v' 2.
Proof.
  unfold check_data. destruct (Py.type_is_int v) eqn:T.
  - intros [= <-]. reflexivity.
  - destruct (Py.len v) as [e|n] eqn:L; [discriminate|].
    destruct (n =? 3) eqn:E; [|discriminate]. apply Z.eqb_eq in E. subst n.
    intros [= <-].
    destruct v as [| | |s|l|l]; try discriminate; cbn in L;
      injection L as L.
    + assert (Hs : length (list_ascii_of_string s) = 3%nat).
      { clear T. assert (String.length s = 3%nat) as H by lia. clear L.
        destruct s as [|a [|b [|c [|]]]]; try discriminate. reflexivity. }
      unfold Py.getitem, Py.seq_index. rewrite Hs. reflexivity.
    + unfold Py.getitem, Py.seq_index.
      replace (length l) with 3%nat by lia. reflexivity.
    + unfold Py.getitem, Py.seq_index.
      replace (length l) with 3%nat by lia. reflexivity.
Qed.

Lemma lift_inr_bind {A B} (a : A) (f : A → M B) : lift (inr a) ≫= f = f a.
Proof. cbn. now destruct (f a). Qed.

Lemma lift_inl_bind {A B} (e : Py.exn) (f : A → M B) :
  lift (inl e) ≫= f = (inl e, []).
Proof. reflexivity. Qed.

(** ** What a successfully built block looks like *)

Ltac inv_run H :=
  repeat
    (let a := fresh "a" in
     let l1 := fresh "l" in
     let l2 := fresh "l" in
     let E := fresh "E" in
     apply bind_inr in H as (a & l1 & l2 & E & H & ->);
     first [ apply lift_inr in E as [E ->]
           | cbn in E; injection E as <- <-
           | idtac ]).

Lemma Xception_Block_init_inr ic oc st fs d sc hs act name b l :
  Xception_Block_init ic oc st fs d sc hs act name = (inr b, l) →
  ∃ oc' fs' st' st0 st1 st2 oc2 short,
    check_data oc 3 = inr oc' ∧
    check_data fs 3 = inr fs' ∧
    check_data st 3 = inr st' ∧
    (x ← Py.getitem st' 0; Py.as_int x) = inr st0 ∧
    (x ← Py.getitem st' 1; Py.as_int x) = inr st1 ∧
    (x ← Py.getitem st' (-1); Py.as_int x) = inr st2 ∧
    (x ← Py.getitem oc' (-1); Py.as_int x) = inr oc2 ∧
    xb_has_skip b = hs ∧ xb_skip_conv b = sc ∧
    xb_activation_fn_in_separable_conv b = act ∧
    xb_acts b = replicate 6 (if act then Some "relu" else None) ∧
    xb_dilations b = [d; d; d] ∧
    xb_strides b = [st0; st1; st2] ∧
    xb_out_channels b = oc2 ∧
    result (ConvBNLayer_init ic oc2 1 st2 0 None (name +:+ "/shortcut"))
      = inr short ∧
    xb_short b = (if hs && sc then Some short else None).
Proof.
  unfold Xception_Block_init. intros H. inv_run H.
  cbn in H. injection H as <- <-.
  pose proof (check_data_last _ _ E) as Loc.
  pose proof (check_data_last _ _ E1) as Lst.
  exists a, a0, a1, a3, a7, a11, a10. eexists.
  rewrite Loc, Lst.
  repeat (split; [first [eassumption|reflexivity|idtac]|]).
  - cbn. destruct act; reflexivity.
  - destruct (hs && sc); cbn.
    + inv_run E13. cbn in E13. injection E13 as <- <-.
      rewrite Loc in E14. rewrite Lst in E15.
      rewrite E10 in E14. rewrite E11 in E15.
      injection E14 as <-. injection E15 as <-. reflexivity.
    + now injection E13 as <- <-.
Qed.

Lemma Xception_Block_init_normalises ic oc st fs d sc hs act name b l :
  Xception_Block_init ic oc st fs d sc hs act name = (inr b, l) →
  ∃ oc' fs' st',
    check_data oc 3 = inr oc' ∧ check_data fs 3 = inr fs' ∧
    check_data st 3 = inr st'.
Proof.
  intros H. apply Xception_Block_init_inr in H
    as (oc' & fs' & st' & _ & _ & _ & _ & _ & Hoc & Hfs & Hst & _).
  exists oc', fs', st'. auto.
Qed.

Lemma Xception_Block_init_check_fails ic oc st fs d sc hs act name :
  (∃ e, check_data oc 3 = inl e) ∨ (∃ e, check_data fs 3 = inl e) ∨
  (∃ e, check_data st 3 = inl e) →
  ∃ e, Xception_Block_init ic oc st fs d sc hs act name = (inl e, []).
Proof.
  intros H. unfold Xception_Block_init.
  destruct (check_data oc 3) as [e|oc'] eqn:Eoc;
    [rewrite lift_inl_bind; eauto|rewrite lift_inr_bind].
  destruct (check_data fs 3) as [e|fs'] eqn:Efs;
    [rewrite lift_inl_bind; eauto|rewrite lift_inr_bind].
  destruct (check_data st 3) as [e|st'] eqn:Est;
    [rewrite lift_inl_bind; eauto|].
  destruct H as [[e H]|[[e H]|[e H]]]; discriminate.
Qed.

(** C5. [Xception_Block] normalises [output_channels], [filter_size] and
    [strides] with [check_data] and count 3.  An integer [v] becomes
    [[v, v, v]], so a block built from the scalar is the block built from
    that list; a list of exactly three items is returned as it is; a list
    of any other length makes [check_data] raise [AssertionError], and
    the construction of the block then raises before any call into the
    framework (its log is empty).  A block that is built has had all
    three arguments normalised. *)
Theorem Xception_Block_check_data_count3 :
  (∀ v, check_data (Py.VInt v) 3
        = inr (Py.VList [Py.VInt v; Py.VInt v; Py.VInt v])) ∧
  (∀ l, length l = 3%nat → check_data (Py.VList l) 3 = inr (Py.VList l)) ∧
  (∀ l, length l ≠ 3%nat →
        check_data (Py.VList l) 3 = inl Py.AssertionError) ∧
  ∀ ic oc st fs d sc hs act name,
    let triple v := Py.VList [Py.VInt v; Py.VInt v; Py.VInt v] in
    (∀ v, Xception_Block_init ic (Py.VInt v) st fs d sc hs act name
          = Xception_Block_init ic (triple v) st fs d sc hs act name) ∧
    (∀ v, Xception_Block_init ic oc (Py.VInt v) fs d sc hs act name
          = Xception_Block_init ic oc (triple v) fs d sc hs act name) ∧
    (∀ v, Xception_Block_init ic oc st (Py.VInt v) d sc hs act name
          = Xception_Block_init ic oc st (triple v) d sc hs act name) ∧
    (∀ b l, Xception_Block_init ic oc st fs d sc hs act name = (inr b, l) →
            ∃ oc' fs' st', check_data oc 3 = inr oc' ∧
                           check_data fs 3 = inr fs' ∧
                           check_data st 3 = inr st') ∧
    (wrong_length oc ∨ wrong_length fs ∨ wrong_length st →
     ∃ e, Xception_Block_init ic oc st fs d sc hs act name = (inl e, [])) ∧
    (wrong_length oc →
     Xception_Block_init ic oc st fs d sc hs act name
     = (inl Py.AssertionError, [])) ∧
    (fits3 oc → wrong_length fs →
     Xception_Block_init ic oc st fs d sc hs act name
     = (inl Py.AssertionError, [])) ∧
    (fits3 oc → fits3 fs → wrong_length st →
     Xception_Block_init ic oc st fs d sc hs act name
     = (inl Py.AssertionError, [])).
Proof.
  split; [exact check_data_int|].
  split.
  { intros l Hl. unfold check_data. cbn. rewrite Hl. reflexivity. }
  split.
  { intros l Hl. apply check_data_wrong_length. exists l. auto. }
  intros ic oc st fs d sc hs act name triple.
  repeat split.
  - intros b l. apply Xception_Block_init_normalises.
  - intros H. apply Xception_Block_init_check_fails.
    destruct H as [H|[H|H]]; apply check_data_wrong_length in H; eauto.
  - intros H. unfold Xception_Block_init.
    now rewrite (check_data_wrong_length _ H).
  - intros [oc' Hoc]%check_data_fits3 Hfs. unfold Xception_Block_init.
    rewrite Hoc, lift_inr_bind. now rewrite (check_data_wrong_length _ Hfs).
  - intros [oc' Hoc]%check_data_fits3 [fs' Hfs]%check_data_fits3 Hst.
    unfold Xception_Block_init.
    rewrite Hoc, lift_inr_bind, Hfs, lift_inr_bind.
    now rewrite (check_data_wrong_length _ Hst).
Qed.

(** A block given four output-channel counts is not built: the assertion
    of [check_data] fails and nothing of the framework was called. *)
Lemma Xception_Block_check_data_count3_witness :
  check_data (Py.VList [Py.VInt 8; Py.VInt 8; Py.VInt 8]) 3
    = inr (Py.VList [Py.VInt 8; Py.VInt 8; Py.VInt 8]) ∧
  check_data (Py.VList [Py.VInt 8; Py.VInt 8; Py.VInt 8; Py.VInt 8]) 3
    = inl Py.AssertionError ∧
  Xception_Block_init 64
    (Py.VList [Py.VInt 8; Py.VInt 8; Py.VInt 8; Py.VInt 8])
    (Py.VInt 1) (Py.VInt 3) 1 true true false "b"
    = (inl Py.AssertionError, []) ∧
  Xception_Block_init 64 (Py.VInt 8)
    (Py.VList [Py.VInt 1; Py.VInt 2]) (Py.VInt 3) 1 true true false "b"
    = (inl Py.AssertionError, []) ∧
  ∃ oc' fs' st',
    check_data (Py.VInt 8) 3 = inr oc' ∧ check_data (Py.VInt 3) 3 = inr fs' ∧
    check_data (Py.VInt 1) 3 = inr st'.
Proof.
  pose proof Xception_Block_check_data_count3 as (_ & H3 & Hn & Hb).
  split; [apply H3; reflexivity|].
  split; [apply Hn; cbn; lia|].
  split.
  { destruct (Hb 64 (Py.VList [Py.VInt 8; Py.VInt 8; Py.VInt 8; Py.VInt 8])
                (Py.VInt 1) (Py.VInt 3) 1 true true false "b"%string)
      as (_ & _ & _ & _ & _ & Hoc & _).
    apply Hoc. exists [Py.VInt 8; Py.VInt 8; Py.VInt 8; Py.VInt 8].
    split; [left; reflexivity|cbn; lia]. }
  split.
  { destruct (Hb 64 (Py.VInt 8) (Py.VList [Py.VInt 1; Py.VInt 2])
                (Py.VInt 3) 1 true true false "b"%string)
      as (_ & _ & _ & _ & _ & _ & _ & Hst).
    apply Hst.
    - left. exists 8. reflexivity.
    - left. exists 3. reflexivity.
    - exists [Py.VInt 1; Py.VInt 2]. split; [left; reflexivity|cbn; lia]. }
  destruct (Hb 64 (Py.VInt 8) (Py.VInt 1) (Py.VInt 3) 1 true true false
               "b"%string) as (_ & _ & _ & Hok & _).
  eapply Hok. vm_compute. reflexivity.
Defined.

(** ** The forward pass of a block *)

(** C6. The forward pass of a built [Xception_Block] has two modes.  With
    [activation_fn_in_separable_conv=False] the main path is ReLU,
    separable conv 1, ReLU, separable conv 2, ReLU, separable conv 3, and
    none of the six batch-norm stages inside the separable convolutions
    has an activation; otherwise the three separable convolutions are
    applied directly and each stage has a ReLU.  With [has_skip] the output
    is the sum of the main path and of a skip path: for [skip_conv=True]
    the 1x1 [ConvBNLayer] whose stride is the last configured stride and
    whose output channels are the last output-channel value, applied to the
    input; for [skip_conv=False] the input itself.  Without [has_skip] the
    output is the main path alone. *)
Theorem Xception_Block_forward_modes
    ic oc st fs d sc hs act name b l (x : Paddle.tensor) :
  Xception_Block_init ic oc st fs d sc hs act name = (inr b, l) →
  let conv1 := Seperate_Conv_forward (xb_conv1 b) in
  let conv2 := Seperate_Conv_forward (xb_conv2 b) in
  let conv3 := Seperate_Conv_forward (xb_conv3 b) in
  let main :=
    if act then conv3 (conv2 (conv1 x))
    else conv3 (Paddle.TRelu (conv2 (Paddle.TRelu (conv1 (Paddle.TRelu x)))))
  in
  (act = false → Forall (λ a, a = None) (xb_acts b)) ∧
  (act = true → Forall (λ a, a = Some "relu"%string) (xb_acts b)) ∧
  (hs = false → Xception_Block_forward b x = inr main) ∧
  (hs = true → sc = false →
   Xception_Block_forward b x = inr (Paddle.TAdd main x)) ∧
  (hs = true → sc = true →
   ∃ short st' oc',
     xb_short b = Some short ∧
     check_data st 3 = inr st' ∧
     (v ← Py.getitem st' (-1); Py.as_int v)
       = inr (Paddle.stride (cb_conv short)) ∧
     check_data oc 3 = inr oc' ∧
     (v ← Py.getitem oc' (-1); Py.as_int v)
       = inr (Paddle.out_channels (cb_conv short)) ∧
     Paddle.kernel_size (cb_conv short) = 1 ∧
     Paddle.in_channels (cb_conv short) = ic ∧
     Paddle.act (cb_bn short) = None ∧
     Xception_Block_forward b x
       = inr (Paddle.TAdd main (ConvBNLayer_forward short x))).
Proof.
  intros H. apply Xception_Block_init_inr in H
    as (oc' & fs' & st' & st0 & st1 & st2 & oc2 & short & Hoc & Hfs & Hst
        & _ & _ & Hst2 & Hoc2 & Hhs & Hsc & Hact & Hacts & _ & _ & _
        & Hshort & Hxs).
  cbn zeta. unfold Xception_Block_forward.
  rewrite Hhs, Hsc, Hact, Hacts, Hxs.
  repeat split.
  - intros ->. cbn. repeat constructor.
  - intros ->. cbn. repeat constructor.
  - intros ->. destruct act; reflexivity.
  - intros -> ->. destruct act; reflexivity.
  - intros -> ->. cbn in Hshort. injection Hshort as <-.
    exists {|
      cb_conv := {| Paddle.in_channels := ic; Paddle.out_channels := oc2;
                    Paddle.kernel_size := 1; Paddle.stride := st2;
                    Paddle.padding := 0; Paddle.dilation := 1;
                    Paddle.groups := 1;
                    Paddle.weight_attr :=
                      (name +:+ "/shortcut") +:+ "/weights" |};
      cb_bn := {| Paddle.num_channels := oc2; Paddle.act := None;
                  Paddle.param_attr :=
                    (name +:+ "/shortcut") +:+ "/BatchNorm/gamma";
                  Paddle.bias_attr :=
                    (name +:+ "/shortcut") +:+ "/BatchNorm/beta";
                  Paddle.moving_mean_name :=
                    (name +:+ "/shortcut") +:+ "/BatchNorm/moving_mean";
                  Paddle.moving_variance_name :=
                    (name +:+ "/shortcut") +:+ "/BatchNorm/moving_variance"
               |} |}, st', oc'.
    cbn. repeat split; try assumption. destruct act; reflexivity.
Qed.

(** An entry-flow block of [xception_65]: pre-activation main path plus
    the projected skip path. *)
Lemma Xception_Block_forward_modes_witness :
  ∃ b short,
    result (Xception_Block_init 64 (Py.VInt 128)
              (Py.VList [Py.VInt 1; Py.VInt 1; Py.VInt 2]) (Py.VInt 3) 1
              true true false "xception_65/entry_flow/block1") = inr b ∧
    xb_short b = Some short ∧
    Paddle.stride (cb_conv short) = 2 ∧
    Paddle.out_channels (cb_conv short) = 128 ∧
    Xception_Block_forward b (Paddle.TInput 0)
    = inr (Paddle.TAdd
             (Seperate_Conv_forward (xb_conv3 b)
                (Paddle.TRelu
                   (Seperate_Conv_forward (xb_conv2 b)
                      (Paddle.TRelu
                         (Seperate_Conv_forward (xb_conv1 b)
                            (Paddle.TRelu (Paddle.TInput 0)))))))
             (ConvBNLayer_forward short (Paddle.TInput 0))).
Proof.
  destruct (Xception_Block_init 64 (Py.VInt 128)
              (Py.VList [Py.VInt 1; Py.VInt 1; Py.VInt 2]) (Py.VInt 3) 1
              true true false "xception_65/entry_flow/block1")
    as [[e|b] l] eqn:E; [vm_compute in E; discriminate|].
  destruct (Xception_Block_forward_modes _ _ _ _ _ _ _ _ _ _ _
              (Paddle.TInput 0) E) as (_ & _ & _ & _ & H).
  destruct (H eq_refl eq_refl)
    as (short & st' & oc' & Hs & Hst & Hst2 & Hoc & Hoc2 & _ & _ & _ & Hf).
  exists b, short. cbn in Hst, Hoc. injection Hst as <-. injection Hoc as <-.
  cbn in Hst2, Hoc2. injection Hst2 as Hst2. injection Hoc2 as Hoc2.
  repeat split; auto.
Defined.

(** ** Unsupported backbones *)

(** C9. For a backbone name other than the three supported ones,
    [gen_bottleneck_params] raises, and so does the construction of
    [XceptionDeeplab], before any layer is built: the log is empty. *)
Theorem unsupported_backbone_raises (backbone : string) (class_dim : Z) :
  backbone ≠ "xception_41"%string →
  backbone ≠ "xception_65"%string →
  backbone ≠ "xception_71"%string →
  gen_bottleneck_params backbone
    = inl (Py.Exception unsupported_backbone_error) ∧
  XceptionDeeplab_init backbone class_dim
    = (inl (Py.Exception unsupported_backbone_error), []).
Proof.
  intros H41 H65 H71.
  assert (gen_bottleneck_params backbone
          = inl (Py.Exception unsupported_backbone_error)) as Hgen.
  { unfold gen_bottleneck_params.
    apply String.eqb_neq in H41, H65, H71. now rewrite H41, H65, H71. }
  split; [exact Hgen|].
  unfold XceptionDeeplab_init. rewrite Hgen. apply lift_inl_bind.
Qed.

Lemma unsupported_backbone_raises_witness :
  gen_bottleneck_params "xception_101"
    = inl (Py.Exception unsupported_backbone_error) ∧
  XceptionDeeplab_init "xception_101" 1000
    = (inl (Py.Exception unsupported_backbone_error), []).
Proof.
  apply (unsupported_backbone_raises "xception_101" 1000); discriminate.
Defined.

(** The names with a table are exactly the supported ones. *)
Lemma gen_bottleneck_params_supported (backbone : string) params :
  gen_bottleneck_params backbone = inr params →
  In backbone supported_backbones.
Proof.
  unfold gen_bottleneck_params, supported_backbones.
  destruct (backbone =? "xception_65")%string eqn:E65;
    [apply String.eqb_eq in E65; cbn; auto|].
  destruct (backbone =? "xception_41")%string eqn:E41;
    [apply String.eqb_eq in E41; cbn; auto|].
  destruct (backbone =? "xception_71")%string eqn:E71;
    [apply String.eqb_eq in E71; cbn; auto|].
  discriminate.
Qed.

(** ** Construction of the supported variants *)

Lemma built_Some {A} (m : M A) (a : A) :
  built m = Some a → result m = inr a.
Proof. unfold built. destruct (result m); [discriminate|]. now intros [= ->]. Qed.

Lemma built_observed {A B} (m : M A) (f : A → B) (v : B) :
  f <$> built m = Some v → ∃ a, result m = inr a ∧ f a = v.
Proof.
  destruct (built m) as [a|] eqn:E; [|discriminate].
  intros [= <-]. exists a. split; [now apply built_Some|reflexivity].
Qed.

Lemma XceptionDeeplab_init_observed (backbone : string) (class_dim : Z) :
  In backbone supported_backbones →
  let run := XceptionDeeplab_init backbone class_dim in
  (xd_backbone <$> built run, loader_calls (calls run)) = (Some backbone, []).
Proof. intros [<-|[<-|[<-|[]]]]; vm_compute; reflexivity. Qed.

Lemma XceptionDeeplab_init_supported (backbone : string) (class_dim : Z) :
  In backbone supported_backbones →
  ∃ model log,
    XceptionDeeplab_init backbone class_dim = (inr model, log) ∧
    loader_calls log = [] ∧ xd_backbone model = backbone.
Proof.
  intros Hb.
  pose proof (XceptionDeeplab_init_observed backbone class_dim Hb) as H.
  cbn zeta in H. apply pair_equal_spec in H as [Hm Hl].
  apply built_observed in Hm as (model & Hr & Hbb).
  destruct (XceptionDeeplab_init backbone class_dim) as [r log].
  cbn in Hr, Hl. subst r. exists model, log. auto.
Qed.

(** ** Loading pretrained weights *)

Lemma load_pretrained_False model url use_ssld :
  _load_pretrained (Py.VBool false) model url use_ssld = (inr tt, []).
Proof. reflexivity. Qed.

Lemma load_pretrained_True model url use_ssld :
  _load_pretrained (Py.VBool true) model url use_ssld
  = (inr tt, [load_dygraph_pretrain_from_url model url use_ssld]).
Proof. reflexivity. Qed.

Lemma load_pretrained_str path model url use_ssld :
  _load_pretrained (Py.VStr path) model url use_ssld
  = (inr tt, [load_dygraph_pretrain model path]).
Proof. reflexivity. Qed.

Lemma load_pretrained_other pretrained model url use_ssld :
  Py.is_True pretrained = false →
  Py.is_False pretrained = false →
  Py.isinstance_str pretrained = false →
  _load_pretrained pretrained model url use_ssld
  = (inl (Py.RuntimeError pretrained_type_error), []).
Proof.
  destruct pretrained as [|[|]| | | |]; cbn; intros; try discriminate;
    reflexivity.
Qed.

(** C10. [_load_pretrained] tests [pretrained] by identity with [True] and
    [False]: a value that is neither of the two singletons nor a string
    raises the "pretrained type is not available" error and no loader is
    called.  The integers 0 and 1, although they stand for the same numbers
    as [False] and [True], are such values. *)
Theorem load_pretrained_identity_not_equality model url use_ssld :
  (∀ pretrained,
     Py.is_True pretrained = false →
     Py.is_False pretrained = false →
     Py.isinstance_str pretrained = false →
     _load_pretrained pretrained model url use_ssld
     = (inl (Py.RuntimeError pretrained_type_error), [])) ∧
  (∀ b : bool,
     Py.as_int (Py.VInt (Z.b2z b)) = Py.as_int (Py.VBool b) ∧
     _load_pretrained (Py.VInt (Z.b2z b)) model url use_ssld
     = (inl (Py.RuntimeError pretrained_type_error), []) ∧
     result (_load_pretrained (Py.VBool b) model url use_ssld) = inr tt).
Proof.
  split; [intros; now apply load_pretrained_other|].
  intros b. split; [reflexivity|].
  split; [now apply load_pretrained_other|]. destruct b; reflexivity.
Qed.

Lemma load_pretrained_identity_not_equality_witness :
  ∃ model,
    result (XceptionDeeplab_init "xception_65" 1000) = inr model ∧
    _load_pretrained Py.VNone model "weights.pdparams" false
    = (inl (Py.RuntimeError pretrained_type_error), []) ∧
    _load_pretrained (Py.VInt 1) model "weights.pdparams" false
    = (inl (Py.RuntimeError pretrained_type_error), []).
Proof.
  destruct (XceptionDeeplab_init_supported "xception_65" 1000)
    as (model & log & E & _); [cbn; auto|].
  exists model. rewrite E. split; [reflexivity|].
  destruct (load_pretrained_identity_not_equality
              model "weights.pdparams" false) as [H _].
  split; apply H; reflexivity.
Defined.

(** The body shared by the factory functions: build, look the URL up,
    load, return the model. *)
Lemma factory_run backbone key pretrained use_ssld class_dim model log url :
  XceptionDeeplab_init backbone class_dim = (inr model, log) →
  urls_getitem MODEL_URLS key = inr url →
  ∀ run,
    run = (model ← XceptionDeeplab_init backbone class_dim;
           url ← lift (urls_getitem MODEL_URLS key);
           _ ← _load_pretrained pretrained model url use_ssld;
           mret model) →
    result run
    = match result (_load_pretrained pretrained model url use_ssld) with
      | inr _ => inr model
      | inl e => inl e
      end ∧
    calls run
    = log ++ calls (_load_pretrained pretrained model url use_ssld).
Proof.
  intros E U run ->. rewrite E, U.
  destruct (_load_pretrained pretrained model url use_ssld)
    as [[e|[]] l2] eqn:L; cbn; rewrite L; cbn;
    rewrite ?app_nil_r; split; reflexivity.
Qed.

Lemma factories_build name factory :
  In (name, factory) factories →
  ∃ backbone url,
    In (name, backbone) [("Xception41_deeplab", "xception_41");
                         ("Xception65_deeplab", "xception_65")]%string ∧
    In name __all__ ∧
    urls_getitem MODEL_URLS name = inr url ∧
    ∀ pretrained use_ssld class_dim,
      factory pretrained use_ssld class_dim
      = (model ← XceptionDeeplab_init backbone class_dim;
         url ← lift (urls_getitem MODEL_URLS name);
         _ ← _load_pretrained pretrained model url use_ssld;
         mret model).
Proof.
  intros [[= <- <-]|[[= <- <-]|[]]].
  - exists "xception_41"%string. eexists.
    split; [cbn; auto|]. split; [cbn; auto|]. split; reflexivity.
  - exists "xception_65"%string. eexists.
    split; [cbn; auto|]. split; [cbn; auto|]. split; reflexivity.
Qed.

(** What a factory function does for each kind of [pretrained]. *)
Lemma factory_dispatch name factory :
  In (name, factory) factories →
  ∃ backbone url,
    In (name, backbone) [("Xception41_deeplab", "xception_41");
                         ("Xception65_deeplab", "xception_65")]%string ∧
    In name __all__ ∧
    urls_getitem MODEL_URLS name = inr url ∧
    ∀ use_ssld class_dim,
    ∃ model,
      result (XceptionDeeplab_init backbone class_dim) = inr model ∧
      xd_backbone model = backbone ∧
      (∀ pretrained,
         let run := factory pretrained use_ssld class_dim in
         (pretrained = Py.VBool false →
          result run = inr model ∧ loader_calls (calls run) = []) ∧
         (pretrained = Py.VBool true →
          result run = inr model ∧
          loader_calls (calls run)
          = [load_dygraph_pretrain_from_url model url use_ssld]) ∧
         (∀ path, pretrained = Py.VStr path →
          result run = inr model ∧
          loader_calls (calls run) = [load_dygraph_pretrain model path]) ∧
         (Py.is_True pretrained = false →
          Py.is_False pretrained = false →
          Py.isinstance_str pretrained = false →
          result run = inl (Py.RuntimeError pretrained_type_error) ∧
          loader_calls (calls run) = [])).
Proof.
  intros Hin.
  destruct (factories_build _ _ Hin) as (backbone & url & Hb & Hall & Hu & Hf).
  exists backbone, url. repeat (split; [assumption|]).
  intros use_ssld class_dim.
  assert (In backbone supported_backbones) as Hsup.
  { destruct Hb as [[= _ <-]|[[= _ <-]|[]]]; cbn; auto. }
  destruct (XceptionDeeplab_init_supported backbone class_dim Hsup)
    as (model & log & E & Hlog & Hbb).
  exists model. rewrite E. split; [reflexivity|]. split; [assumption|].
  intros pretrained run.
  destruct (factory_run backbone name pretrained use_ssld class_dim
              model log url E Hu run (Hf _ _ _)) as [Hr Hc].
  rewrite Hr, Hc, loader_calls_app, Hlog. cbn [app].
  repeat split; try (intros; subst pretrained; reflexivity).
  - intros. now rewrite load_pretrained_other.
  - intros. now rewrite load_pretrained_other.
Qed.

(** C4. [_load_pretrained], as every factory function reaches it: with
    [pretrained=False] no loader is called; with [pretrained=True] the URL
    loader is called exactly once, with the built model, the URL registered
    for the factory and the [use_ssld] flag; with a string the local-path
    loader is called exactly once with the built model and that string; with
    any other value the call raises [RuntimeError] and no loader was
    called. *)
Theorem load_pretrained_dispatch
    name factory (pretrained : Py.value) (use_ssld : bool) (class_dim : Z) :
  In (name, factory) factories →
  ∃ model url,
    urls_getitem MODEL_URLS name = inr url ∧
    let run := factory pretrained use_ssld class_dim in
    (pretrained = Py.VBool false →
     _load_pretrained pretrained model url use_ssld = (inr tt, []) ∧
     result run = inr model ∧ loader_calls (calls run) = []) ∧
    (pretrained = Py.VBool true →
     _load_pretrained pretrained model url use_ssld
     = (inr tt, [load_dygraph_pretrain_from_url model url use_ssld]) ∧
     result run = inr model ∧
     loader_calls (calls run)
     = [load_dygraph_pretrain_from_url model url use_ssld]) ∧
    (∀ path, pretrained = Py.VStr path →
     _load_pretrained pretrained model url use_ssld
     = (inr tt, [load_dygraph_pretrain model path]) ∧
     result run = inr model ∧
     loader_calls (calls run) = [load_dygraph_pretrain model path]) ∧
    ((∀ b, pretrained ≠ Py.VBool b) → (∀ path, pretrained ≠ Py.VStr path) →
     _load_pretrained pretrained model url use_ssld
     = (inl (Py.RuntimeError pretrained_type_error), []) ∧
     result run = inl (Py.RuntimeError pretrained_type_error) ∧
     loader_calls (calls run) = []).
Proof.
  intros Hin.
  destruct (factory_dispatch _ _ Hin) as (backbone & url & _ & _ & Hu & H).
  destruct (H use_ssld class_dim) as (model & _ & _ & Hrun).
  destruct (Hrun pretrained) as (HF & HT & HS & HO).
  exists model, url. split; [exact Hu|]. cbn zeta.
  split; [intros ->; split; [reflexivity|now apply HF]|].
  split; [intros ->; split; [reflexivity|now apply HT]|].
  split; [intros path ->; split; [reflexivity|now apply HS]|].
  intros Hb Hs.
  assert (Py.is_True pretrained = false ∧ Py.is_False pretrained = false ∧
          Py.isinstance_str pretrained = false) as (H1 & H2 & H3).
  { destruct pretrained as [|b| |s| |]; cbn; auto.
    - now destruct (Hb b).
    - now destruct (Hs s). }
  split; [now apply load_pretrained_other|now apply HO].
Qed.

(** [Xception41_deeplab(pretrained=123)] raises after the model was built
    and without a loader call. *)
Lemma load_pretrained_dispatch_witness :
  result (Xception41_deeplab (Py.VInt 123) false 1000)
    = inl (Py.RuntimeError pretrained_type_error) ∧
  loader_calls (calls (Xception41_deeplab (Py.VInt 123) false 1000)) = [].
Proof.
  destruct (load_pretrained_dispatch "Xception41_deeplab" Xception41_deeplab
              (Py.VInt 123) false 1000 (or_introl eq_refl))
    as (model & url & _ & _ & _ & _ & H).
  apply H; discriminate.
Defined.

(** ** The exposed factory functions *)

Lemma exposes_factory_for_built name factory :
  In (name, factory) factories →
  ∃ backbone,
    In (name, backbone) [("Xception41_deeplab", "xception_41");
                         ("Xception65_deeplab", "xception_65")]%string ∧
    exposes_factory_for backbone.
Proof.
  intros Hin.
  destruct (factory_dispatch _ _ Hin) as (backbone & url & Hb & Hall & Hu & H).
  exists backbone. split; [exact Hb|].
  exists name, factory, url. repeat (split; [assumption|]).
  intros use_ssld class_dim.
  destruct (H use_ssld class_dim) as (model & Hm & _ & Hrun).
  exists model. split; [exact Hm|].
  split; [apply (Hrun (Py.VBool false)); reflexivity|].
  split; [apply (Hrun (Py.VBool true)); reflexivity|].
  intros path. apply (Hrun (Py.VStr path)). reflexivity.
Qed.

(** No factory function of the module builds the 71-layer variant. *)
Lemma no_factory_for_xception_71 : ¬ exposes_factory_for "xception_71".
Proof.
  intros (name & factory & url & Hin & _ & _ & H).
  destruct (H false 1000) as (model & Hm & [Hr _] & _).
  destruct (factory_dispatch _ _ Hin) as (backbone & url' & Hb & _ & _ & H').
  destruct (H' false 1000) as (model' & _ & Hbb & Hrun).
  destruct (Hrun (Py.VBool false)) as ([Hr' _]%(fun f => f eq_refl) & _).
  rewrite Hr in Hr'. injection Hr' as <-.
  destruct (XceptionDeeplab_init_supported "xception_71" 1000)
    as (model71 & log & E & _ & H71); [cbn; auto|].
  rewrite E in Hm. cbn in Hm. injection Hm as ->.
  rewrite H71 in Hbb. subst backbone.
  destruct Hb as [[=]|[[=]|[]]].
Qed.

(** The claim that each of the three depth variants has a factory
    function fails: there is none for [xception_71]. *)
Lemma factory_for_each_variant_refuted :
  ¬ Forall exposes_factory_for supported_backbones.
Proof.
  intros H. unfold supported_backbones in H.
  apply Forall_cons_iff in H as [_ H].
  apply Forall_cons_iff in H as [_ H].
  apply Forall_cons_iff in H as [H _].
  exact (no_factory_for_xception_71 H).
Qed.

(** C8, amended.  The module exposes a factory function for the 41-layer
    and the 65-layer variants, each of which builds the corresponding
    [XceptionDeeplab] model and optionally loads pretrained weights from
    the registered URL or from a local path; it exposes none for the
    71-layer variant. *)
Theorem factories_for_41_and_65 :
  exposes_factory_for "xception_41" ∧
  exposes_factory_for "xception_65" ∧
  ¬ exposes_factory_for "xception_71" ∧
  __all__ = ["Xception41_deeplab"; "Xception65_deeplab"]%string ∧
  map fst factories = __all__.
Proof.
  split.
  { destruct (exposes_factory_for_built "Xception41_deeplab"
                Xception41_deeplab) as (b & Hb & H); [left; reflexivity|].
    destruct Hb as [[= <-]|[[=]|[]]]. exact H. }
  split.
  { destruct (exposes_factory_for_built "Xception65_deeplab"
                Xception65_deeplab) as (b & Hb & H);
      [right; left; reflexivity|].
    destruct Hb as [[=]|[[= <-]|[]]]. exact H. }
  split; [exact no_factory_for_xception_71|].
  split; reflexivity.
Qed.

(** ** The strides the blocks are given *)

(** Whatever the table holds, an entry-flow block is given the attribute
    [self.stride] as its last stride, not the clipped stride that the
    accumulator is multiplied by. *)
Lemma entry_flow_body_block_strides
    backbone strides chns self_stride os i acc s acc' s' :
  result (entry_flow_body backbone strides chns self_stride os i (acc, s))
    = inr (acc', s') →
  ∃ blk requested,
    acc' = acc ++ [blk] ∧
    xb_strides blk = [1; 1; self_stride] ∧
    (x ← Py.getitem strides i; Py.as_int x) = inr requested ∧
    s' = s * clipped_stride s requested os.
Proof.
  destruct (entry_flow_body backbone strides chns self_stride os i (acc, s))
    as [r log] eqn:H.
  cbn. intros ->. unfold entry_flow_body in H. inv_run H.
  cbn in H. injection H as <- <-.
  exists a2, a. split; [reflexivity|]. split; [|split; [assumption|reflexivity]].
  apply Xception_Block_init_inr in E2
    as (oc' & fs' & st' & st0 & st1 & st2 & oc2 & short & _ & _ & Hst
        & H0 & H1 & H2 & _ & _ & _ & _ & _ & _ & Hs & _).
  cbn in Hst. injection Hst as <-.
  vm_compute in H0, H1, H2. congruence.
Qed.

(** The middle-flow blocks are given the table's stride, unclipped. *)
Lemma middle_flow_body_block_strides
    backbone strides os i acc s acc' s' :
  result (middle_flow_body backbone strides os i (acc, s)) = inr (acc', s') →
  ∃ blk requested,
    acc' = acc ++ [blk] ∧
    xb_strides blk = [1; 1; requested] ∧
    (x ← Py.getitem strides i; Py.as_int x) = inr requested ∧
    s' = s * clipped_stride s requested os.
Proof.
  destruct (middle_flow_body backbone strides os i (acc, s))
    as [r log] eqn:H.
  cbn. intros ->. unfold middle_flow_body in H. inv_run H.
  cbn in H. injection H as <- <-.
  exists a1, a. split; [reflexivity|]. split; [|split; [assumption|reflexivity]].
  apply Xception_Block_init_inr in E1
    as (oc' & fs' & st' & st0 & st1 & st2 & oc2 & short & _ & _ & Hst
        & H0 & H1 & H2 & _ & _ & _ & _ & _ & _ & Hs & _).
  cbn in Hst. injection Hst as <-.
  rewrite Hs. vm_compute in H0, H1. injection H0 as <-. injection H1 as <-.
  rewrite E0 in E. change (Py.as_int a0 = inr st2) in H2.
  change (Py.as_int a0 = inr a) in E. congruence.
Qed.

(** For [xception_41] and [xception_65] the last stride of every block,
    stage after stage, is the effective stride that was multiplied into
    the accumulator; for [xception_71] this holds for the middle and exit
    flows. *)
Lemma block_strides_observed (class_dim : Z) :
  let last_strides model :=
    ( map xb_strides (xd_entry_flow model),
      map xb_strides (xd_middle_flow model),
      [xb_strides (xd_exit_flow_1 model); xb_strides (xd_exit_flow_2 model)] )
  in
  let observed backbone :=
    let run := XceptionDeeplab_init backbone class_dim in
    (last_strides <$> built run, logged_effective_strides (calls run)) in
  observed "xception_41"
  = (Some (replicate 3 [1; 1; 2], replicate 8 [1; 1; 1],
           [[1; 1; 2]; [1; 1; 1]]),
     [2; 2; 2] ++ replicate 8 1 ++ [2; 1]) ∧
  observed "xception_65"
  = (Some (replicate 3 [1; 1; 2], replicate 16 [1; 1; 1],
           [[1; 1; 2]; [1; 1; 1]]),
     [2; 2; 2] ++ replicate 16 1 ++ [2; 1]) ∧
  observed "xception_71"
  = (Some (replicate 5 [1; 1; 2], replicate 16 [1; 1; 1],
           [[1; 1; 2]; [1; 1; 1]]),
     [2; 1; 2; 1; 2] ++ replicate 16 1 ++ [2; 1]).
Proof. split; [|split]; vm_compute; reflexivity. Qed.

(** C1, at the input where it fails.  In the entry flow of [xception_71]
    the effective strides, as the code computes them into [stride] and as
    the specification defines them, are 2, 1, 2, 1, 2, but each of the five
    blocks is built with the strides [1, 1, 2]: the loop passes
    [self.stride], which is 2 throughout, where the exit flow passes
    [stride]. *)
Theorem entry_flow_xception_71_strides (class_dim : Z) :
  let run := XceptionDeeplab_init "xception_71" class_dim in
  ∃ model,
    result run = inr model ∧
    map xb_strides (xd_entry_flow model) = replicate 5 [1; 1; 2] ∧
    take 5 (logged_effective_strides (calls run)) = [2; 1; 2; 1; 2] ∧
    spec_effective_strides 32 2 [2; 1; 2; 1; 2] = [2; 1; 2; 1; 2] ∧
    map xb_strides (xd_entry_flow model) !! 1%nat = Some [1; 1; 2] ∧
    logged_effective_strides (calls run) !! 1%nat = Some 1.
Proof.
  destruct (block_strides_observed class_dim) as (_ & _ & H).
  cbn zeta in *. apply pair_equal_spec in H as [Hm Hl].
  apply built_observed in Hm as (model & Hr & Hm). injection Hm as He _ _.
  exists model. split; [exact Hr|]. split; [exact He|].
  rewrite Hl, He. repeat split; reflexivity.
Qed.

(** ** The stride accumulator of the supported variants *)

Lemma StepsWithin_bind_quiet {A B} os s (m : M A) (f : A → M B) :
  quiet m →
  (∀ a, StepsWithin os s (stride_steps (calls (f a)))) →
  StepsWithin os s (stride_steps (calls (m ≫= f))).
Proof.
  unfold quiet. intros Hm Hf. rewrite calls_bind, stride_steps_app, Hm.
  destruct (result m); [constructor|apply Hf].
Qed.

Lemma StepsWithin_emit {B} os s r (f : unit → M B) :
  s <= os →
  StepsWithin os (s * clipped_stride s r os) (stride_steps (calls (f tt))) →
  StepsWithin os s
    (stride_steps
       (calls (emit (StrideStep s r (clipped_stride s r os)
                       (s * clipped_stride s r os)) ≫= f))).
Proof.
  intros Hs Hf. rewrite calls_bind. cbn.
  pose proof (clipped_stride_within os s r Hs) as Hs'.
  unfold clipped_stride, check_stride in *.
  replace (if if s * r <=? os then true else false then r else 1)
    with (if s * r <=? os then r else 1) in *
    by (destruct (s * r <=? os); reflexivity).
  now constructor.
Qed.

(** Whatever the table holds, the two updates of the exit flow are
    clipped and stay within the bound. *)
Lemma exit_flow_init_steps_within backbone strides chns os s :
  s <= os →
  StepsWithin os s
    (stride_steps (calls (exit_flow_init backbone strides chns os s))).
Proof.
  intros Hs. unfold exit_flow_init.
  apply StepsWithin_bind_quiet; [auto with quiet|intros r0].
  apply StepsWithin_bind_quiet; [auto with quiet|intros c0].
  apply StepsWithin_bind_quiet; [apply quiet_Xception_Block_init|intros b1].
  apply StepsWithin_emit; [exact Hs|].
  pose proof (clipped_stride_within os s r0 Hs) as Hs'.
  apply StepsWithin_bind_quiet; [auto with quiet|intros r1].
  apply StepsWithin_bind_quiet; [auto with quiet|intros c0'].
  apply StepsWithin_bind_quiet; [auto with quiet|intros c0l].
  apply StepsWithin_bind_quiet; [auto with quiet|intros c1].
  apply StepsWithin_bind_quiet; [apply quiet_Xception_Block_init|intros b2].
  apply StepsWithin_emit; [exact Hs'|].
  constructor.
Qed.

Lemma stride_steps_observed (backbone : string) (class_dim : Z) :
  In backbone supported_backbones →
  let run := XceptionDeeplab_init backbone class_dim in
  let steps := stride_steps (calls run) in
  ∃ requested n,
    ( params ← gen_bottleneck_params backbone; table_requested_strides params,
      map (λ '(_, r, _, _), r) steps,
      steps_within 32 2 steps,
      (λ model, (xd_stride model, xd_output_stride model,
                 length (xd_blocks model))) <$> built run,
      length steps,
      last (map (λ '(_, _, _, s'), s') steps) )
    = (inr requested, requested, true, Some (32, 32, n), n, Some 32).
Proof.
  intros [<-|[<-|[<-|[]]]]; eexists; eexists; vm_compute; reflexivity.
Qed.

(** C2. The clipping rule holds wherever the accumulator [s] is updated,
    for any table and from any state within the bound: in the entry-flow
    loop, in the middle-flow loop and in the exit flow every update starts
    from the value the previous one left, multiplies by the requested
    stride when the product stays within [output_stride] and by 1
    otherwise, and leaves a value within the bound.  For each of the three
    supported backbones the construction makes one update per block, the
    requested strides are those of the table in block order, the
    accumulator starts at 2 and never exceeds 32, and for a positive
    [class_dim] the construction returns a model whose [self.stride] is the
    last value of the accumulator, 32. *)
Theorem stride_accumulator_within_32 :
  (∀ backbone strides chns self_stride os idx acc s,
     s <= os →
     StepsWithin os s
       (stride_steps
          (calls (for_each
                    (entry_flow_body backbone strides chns self_stride os)
                    idx (acc, s)))) ∧
     StepsWithin os s
       (stride_steps
          (calls (for_each (middle_flow_body backbone strides os)
                    idx (acc, s)))) ∧
     StepsWithin os s
       (stride_steps (calls (exit_flow_init backbone strides chns os s)))) ∧
  Forall (λ backbone, ∀ class_dim,
    let run := XceptionDeeplab_init backbone class_dim in
    let steps := stride_steps (calls run) in
    ∃ params requested,
      gen_bottleneck_params backbone = inr params ∧
      table_requested_strides params = inr requested ∧
      map (λ '(_, r, _, _), r) steps = requested ∧
      StepsWithin 32 2 steps ∧
      Forall (λ '(s, _, _, s'), s <= 32 ∧ s' <= 32) steps ∧
      (0 < class_dim →
       ∃ model,
         result run = inr model ∧
         xd_output_stride model = 32 ∧
         length steps = length (xd_blocks model) ∧
         last (map (λ '(_, _, _, s'), s') steps) = Some (xd_stride model) ∧
         xd_stride model = 32))
  supported_backbones.
Proof.
  split.
  { intros backbone strides chns self_stride os idx acc s Hs.
    split; [|split].
    - apply for_each_steps_within; [apply entry_flow_body_clipping|exact Hs].
    - apply for_each_steps_within; [apply middle_flow_body_clipping|exact Hs].
    - now apply exit_flow_init_steps_within. }
  apply Forall_forall. intros backbone Hin%list_elem_of_In class_dim.
  destruct (stride_steps_observed backbone class_dim Hin)
    as (requested & n & H).
  cbn zeta in *.
  apply pair_equal_spec in H as [H Hlast].
  apply pair_equal_spec in H as [H Hlen].
  apply pair_equal_spec in H as [H Hm].
  apply pair_equal_spec in H as [H Hs].
  apply pair_equal_spec in H as [Ht Hreq].
  destruct (gen_bottleneck_params backbone) as [e|params] eqn:Hp;
    [discriminate|].
  change (table_requested_strides params = inr requested) in Ht.
  apply steps_within_sound in Hs.
  exists params, requested.
  split; [reflexivity|]. split; [exact Ht|]. split; [exact Hreq|].
  split; [exact Hs|].
  split; [eapply StepsWithin_bounded; [|exact Hs]; lia|].
  intros _. apply built_observed in Hm as (model & Hr & Hm).
  apply pair_equal_spec in Hm as [Hm Hblocks].
  apply pair_equal_spec in Hm as [Hstride Hos].
  exists model. rewrite Hlen, Hlast, Hstride, Hblocks. auto.
Qed.

(** The exit flow entered with the accumulator already at 32: the
    requested stride 2 is replaced by 1.  The 71-layer variant with the
    default [class_dim]. *)
Lemma stride_accumulator_within_32_witness :
  let chns :=
    Py.VList [Py.VList [Py.VInt 728; Py.VInt 1024; Py.VInt 1024];
              Py.VList [Py.VInt 1536; Py.VInt 1536; Py.VInt 2048]] in
  let exit := exit_flow_init "x" (Py.VList [Py.VInt 2; Py.VInt 1]) chns 32 32 in
  stride_steps (calls exit) = [(32, 2, 1, 32); (32, 1, 1, 32)] ∧
  StepsWithin 32 32 (stride_steps (calls exit)) ∧
  ∃ model,
    result (XceptionDeeplab_init "xception_71" 1000) = inr model ∧
    xd_stride model = 32 ∧
    length (stride_steps (calls (XceptionDeeplab_init "xception_71" 1000)))
      = length (xd_blocks model).
Proof.
  cbn zeta. destruct stride_accumulator_within_32 as [Hany Hthree].
  split; [vm_compute; reflexivity|].
  split.
  { apply (Hany "x"%string (Py.VList [Py.VInt 2; Py.VInt 1])
             (Py.VList [Py.VList [Py.VInt 728; Py.VInt 1024; Py.VInt 1024];
                        Py.VList [Py.VInt 1536; Py.VInt 1536; Py.VInt 2048]])
             2 32 [] [] 32).
    lia. }
  rewrite List.Forall_forall in Hthree.
  destruct (Hthree "xception_71"%string
              ltac:(right; right; left; reflexivity) 1000)
    as (params & requested & _ & _ & _ & _ & _ & H).
  destruct H as (model & Hr & _ & Hlen & _ & Hs); [lia|].
  exists model. auto.
Defined.

(** ** Block counts *)

Lemma block_counts_observed (class_dim : Z) :
  let counts model :=
    (length (xd_entry_flow model), length (xd_middle_flow model),
     xd_block_num model) in
  let table backbone :=
    params ← gen_bottleneck_params backbone;
    e ← table_block_num params "entry_flow";
    m ← table_block_num params "middle_flow";
    x ← table_block_num params "exit_flow";
    mret (e, m, x) in
  (counts <$> built (XceptionDeeplab_init "xception_65" class_dim),
   table "xception_65")
  = (Some (3%nat, 16%nat, 2), inr (3, 16, 2)) ∧
  (counts <$> built (XceptionDeeplab_init "xception_41" class_dim),
   table "xception_41")
  = (Some (3%nat, 8%nat, 2), inr (3, 8, 2)).
Proof. split; vm_compute; reflexivity. Qed.

(** C3. The model built for [xception_65] has 3 entry-flow blocks and 16
    middle-flow blocks, the one built for [xception_41] has 3 and 8; both
    have the two exit-flow blocks, for a block count of 2.  These counts
    are the first components of the stage entries of the table that
    [gen_bottleneck_params] returns for the backbone. *)
Theorem block_counts_41_65 (class_dim : Z) :
  (∃ model params,
     result (XceptionDeeplab_init "xception_65" class_dim) = inr model ∧
     gen_bottleneck_params "xception_65" = inr params ∧
     table_block_num params "entry_flow" = inr 3 ∧
     length (xd_entry_flow model) = 3%nat ∧
     table_block_num params "middle_flow" = inr 16 ∧
     length (xd_middle_flow model) = 16%nat ∧
     table_block_num params "exit_flow" = inr 2 ∧
     xd_block_num model = 2 ∧
     length [xd_exit_flow_1 model; xd_exit_flow_2 model] = 2%nat) ∧
  (∃ model params,
     result (XceptionDeeplab_init "xception_41" class_dim) = inr model ∧
     gen_bottleneck_params "xception_41" = inr params ∧
     table_block_num params "entry_flow" = inr 3 ∧
     length (xd_entry_flow model) = 3%nat ∧
     table_block_num params "middle_flow" = inr 8 ∧
     length (xd_middle_flow model) = 8%nat ∧
     table_block_num params "exit_flow" = inr 2 ∧
     xd_block_num model = 2 ∧
     length [xd_exit_flow_1 model; xd_exit_flow_2 model] = 2%nat).
Proof.
  destruct (block_counts_observed class_dim) as [H65 H41]. cbn zeta in *.
  split.
  - apply pair_equal_spec in H65 as [Hm _].
    apply built_observed in Hm as (model & Hr & Hm). injection Hm as He Hmid Hx.
    exists model, xception_65_params.
    repeat split; try assumption; reflexivity.
  - apply pair_equal_spec in H41 as [Hm _].
    apply built_observed in Hm as (model & Hr & Hm). injection Hm as He Hmid Hx.
    exists model, xception_41_params.
    repeat split; try assumption; reflexivity.
Qed.

(** ** Exit-flow block 2 and the classifier head *)

Lemma exit_flow_2_observed (backbone : string) (class_dim : Z) :
  In backbone supported_backbones →
  let shape model :=
    let b2 := xd_exit_flow_2 model in
    (xb_has_skip b2, xb_activation_fn_in_separable_conv b2, xb_dilations b2,
     xb_acts b2, xb_strides b2, xb_short b2, xb_out_channels b2,
     Paddle.in_features (xd_fc model), Paddle.out_features (xd_fc model)) in
  (shape <$> built (XceptionDeeplab_init backbone class_dim),
   params ← gen_bottleneck_params backbone; table_exit_last_channels params)
  = (Some (false, true, [2; 2; 2], replicate 6 (Some "relu"%string),
           [1; 1; 1], None, 2048, 2048, class_dim),
     inr 2048).
Proof. intros [<-|[<-|[<-|[]]]]; vm_compute; reflexivity. Qed.

(** C7. For every supported backbone, exit-flow block 2 is built with
    [has_skip=False], dilation 2 and the activation inside its separable
    convolutions; its strides are [1, 1, 1], so it does not downsample; its
    forward pass is the three separable convolutions alone; its output
    channel count is the table's [chns[1][-1]], 2048, and that value is the
    input feature count of the final [Linear] layer, whose output feature
    count is [class_dim]. *)
Theorem exit_flow_block_2 :
  Forall (λ backbone, ∀ class_dim,
    ∃ model params,
      result (XceptionDeeplab_init backbone class_dim) = inr model ∧
      gen_bottleneck_params backbone = inr params ∧
      let b2 := xd_exit_flow_2 model in
      xb_has_skip b2 = false ∧
      xb_dilations b2 = [2; 2; 2] ∧
      xb_activation_fn_in_separable_conv b2 = true ∧
      xb_acts b2 = replicate 6 (Some "relu"%string) ∧
      xb_strides b2 = [1; 1; 1] ∧
      xb_short b2 = None ∧
      (∀ x, Xception_Block_forward b2 x
            = inr (Seperate_Conv_forward (xb_conv3 b2)
                     (Seperate_Conv_forward (xb_conv2 b2)
                        (Seperate_Conv_forward (xb_conv1 b2) x)))) ∧
      table_exit_last_channels params = inr 2048 ∧
      xb_out_channels b2 = 2048 ∧
      Paddle.in_features (xd_fc model) = 2048 ∧
      Paddle.out_features (xd_fc model) = class_dim)
  supported_backbones.
Proof.
  apply Forall_forall. intros backbone Hin%list_elem_of_In class_dim.
  pose proof (exit_flow_2_observed backbone class_dim Hin) as H.
  cbn zeta in H. apply pair_equal_spec in H as [Hm Ht].
  apply built_observed in Hm as (model & Hr & Hm).
  cbn beta zeta in Hm. repeat (apply pair_equal_spec in Hm as [Hm ?]).
  destruct (gen_bottleneck_params backbone) as [e|params] eqn:Hp;
    [discriminate|].
  change (table_exit_last_channels params = inr 2048) in Ht.
  exists model, params. cbn zeta.
  repeat (split; [first [assumption|reflexivity]|]).
  split; [|repeat split; assumption].
  intros x. unfold Xception_Block_forward.
  replace (xb_has_skip (xd_exit_flow_2 model)) with false by auto.
  replace (xb_activation_fn_in_separable_conv (xd_exit_flow_2 model))
    with true by auto.
  reflexivity.
Qed.

(** * Further properties of the module *)

(** ** [check_data] for any count *)

(** X1. Whatever [check_data] returns for a count that is not negative is
    a sequence of exactly that many items; it is not an [int], and
    normalising it again with the same count returns it unchanged. *)
Theorem check_data_normalised (data : Py.value) (number : Z) (v : Py.value) :
  0 <= number →
  check_data data number = inr v →
  Py.len v = inr number ∧ Py.type_is_int v = false ∧
  check_data v number = inr v.
Proof.
  intros Hn. unfold check_data at 1.
  destruct (Py.type_is_int data) eqn:T.
  - unfold Py.repeat_list.
    destruct (Py.index_sized number); [|discriminate].
    intros [= <-]. unfold check_data. cbn.
    rewrite length_replicate, Z2Nat.id by lia.
    now rewrite Z.eqb_refl.
  - destruct (Py.len data) as [e|n] eqn:L; [discriminate|].
    destruct (n =? number) eqn:E; [|discriminate].
    apply Z.eqb_eq in E. subst n. intros [= <-].
    unfold check_data. rewrite T, L, Z.eqb_refl. auto.
Qed.

Lemma check_data_normalised_witness :
  check_data (Py.VInt 7) 4
    = inr (Py.VList [Py.VInt 7; Py.VInt 7; Py.VInt 7; Py.VInt 7]) ∧
  Py.len (Py.VList [Py.VInt 7; Py.VInt 7; Py.VInt 7; Py.VInt 7]) = inr 4 ∧
  check_data (Py.VList [Py.VInt 7; Py.VInt 7; Py.VInt 7; Py.VInt 7]) 4
    = inr (Py.VList [Py.VInt 7; Py.VInt 7; Py.VInt 7; Py.VInt 7]).
Proof.
  split; [reflexivity|].
  destruct (check_data_normalised (Py.VInt 7) 4
              (Py.VList [Py.VInt 7; Py.VInt 7; Py.VInt 7; Py.VInt 7]))
    as (H1 & _ & H2); [lia|reflexivity|].
  split; assumption.
Defined.

(** X2. Error and edge behaviour of [check_data].  [None] and the
    booleans - which [type(data) == int] does not take for ints - raise
    [TypeError]; a string, list or tuple is returned unchanged when its
    length is the count and raises [AssertionError] otherwise.  For an
    [int], a count that is not index-sized raises [OverflowError], and an
    index-sized count that is zero or negative gives the empty list without
    any error; for a negative count that result does not pass
    [check_data] itself: normalising it again raises [AssertionError]. *)
Theorem check_data_errors (data : Py.value) (number : Z) :
  (data = Py.VNone ∨ (∃ b, data = Py.VBool b) →
   check_data data number = inl Py.TypeError) ∧
  (∀ n, Py.type_is_int data = false → Py.len data = inr n →
        check_data data number
        = (if n =? number then inr data else inl Py.AssertionError)) ∧
  (∀ z, Py.index_sized number = false →
        check_data (Py.VInt z) number = inl Py.OverflowError) ∧
  (∀ z, Py.index_sized number = true → number <= 0 →
        check_data (Py.VInt z) number = inr (Py.VList [])) ∧
  (number < 0 → check_data (Py.VList []) number = inl Py.AssertionError).
Proof.
  assert (∀ z, Py.index_sized number = true → number <= 0 →
               check_data (Py.VInt z) number = inr (Py.VList [])) as Hneg.
  { intros z Hi Hn. unfold check_data, Py.repeat_list. cbn. rewrite Hi.
    destruct number; try lia; reflexivity. }
  split; [intros [->|[b ->]]; reflexivity|].
  split; [intros n T L; unfold check_data; now rewrite T, L|].
  split.
  { intros z Hi. unfold check_data, Py.repeat_list. cbn. now rewrite Hi. }
  split; [exact Hneg|].
  intros Hn. unfold check_data. cbn.
  destruct (Z.of_nat 0 =? number) eqn:E; [|reflexivity].
  apply Z.eqb_eq in E. cbn in E. lia.
Qed.

Lemma check_data_errors_witness :
  check_data (Py.VBool true) 3 = inl Py.TypeError ∧
  check_data (Py.VTuple [Py.VInt 1; Py.VInt 2]) 3 = inl Py.AssertionError ∧
  check_data (Py.VInt 5) (2 ^ 63) = inl Py.OverflowError ∧
  check_data (Py.VInt 5) (-1) = inr (Py.VList []) ∧
  check_data (Py.VList []) (-1) = inl Py.AssertionError.
Proof.
  split.
  { destruct (check_data_errors (Py.VBool true) 3) as (H & _).
    apply H. right. exists true. reflexivity. }
  split.
  { destruct (check_data_errors (Py.VTuple [Py.VInt 1; Py.VInt 2]) 3)
      as (_ & H & _).
    apply (H 2); reflexivity. }
  split.
  { destruct (check_data_errors Py.VNone (2 ^ 63)) as (_ & _ & H & _).
    apply H. reflexivity. }
  destruct (check_data_errors Py.VNone (-1)) as (_ & _ & _ & H0 & H1).
  split; [apply H0; [reflexivity|lia]|apply H1; lia].
Defined.

(** ** [check_points] *)

Lemma Py_eqb_bool_as_int (b : bool) (x : Py.value) :
  Py.eqb (Py.VBool b) x = Py.eqb (Py.VInt (Z.b2z b)) x.
Proof. destruct x as [|y| | | |]; try reflexivity. now destruct b, y. Qed.

(** X3. [check_points] is [False] for [None]; for a list it says whether
    some item equals [count]; any other value is compared with [count] as
    a whole, so it behaves as the one-item list of that value, and a
    tuple of points never matches an integer count.  Equality is Python's:
    a boolean count matches as the integer 0 or 1. *)
Theorem check_points_cases (count : Py.value) :
  check_points count Py.VNone = false ∧
  (∀ l, check_points count (Py.VList l) = true ↔
        ∃ x, In x l ∧ Py.eqb count x = true) ∧
  (∀ p, Py.is_None p = false → Py.isinstance_list p = false →
        check_points count p = check_points count (Py.VList [p])) ∧
  (∀ z l, check_points (Py.VInt z) (Py.VTuple l) = false) ∧
  (∀ b l, check_points (Py.VBool b) (Py.VList l)
          = check_points (Py.VInt (Z.b2z b)) (Py.VList l)).
Proof.
  split; [reflexivity|]. split.
  { intros l. unfold check_points, Py.list_contains. cbn.
    destruct (existsb (Py.eqb count) l) eqn:E.
    - split; [intros _|reflexivity]. now apply existsb_exists in E.
    - split; [discriminate|]. intros H. apply existsb_exists in H. congruence. }
  split.
  { intros p Hn Hl. unfold check_points, Py.list_contains. rewrite Hn. cbn.
    rewrite orb_false_r. destruct p; try discriminate; reflexivity. }
  split; [reflexivity|].
  intros b l.
  cbv beta iota delta [check_points Py.is_None Py.list_contains].
  replace (existsb (Py.eqb (Py.VBool b)) l)
    with (existsb (Py.eqb (Py.VInt (Z.b2z b))) l); [reflexivity|].
  induction l as [|x l IH]; [reflexivity|].
  cbn [existsb]. now rewrite IH, Py_eqb_bool_as_int.
Qed.

Lemma check_points_cases_witness :
  check_points (Py.VInt 3) (Py.VInt 3)
    = check_points (Py.VInt 3) (Py.VList [Py.VInt 3]) ∧
  check_points (Py.VInt 3) (Py.VTuple [Py.VInt 3]) = false.
Proof.
  destruct (check_points_cases (Py.VInt 3)) as (_ & _ & H & _).
  split; [apply H; reflexivity|].
  destruct (check_points_cases (Py.VInt 3)) as (_ & _ & _ & H' & _).
  apply H'.
Defined.

(** ** Reading a stage of the table *)

(** X4. When the header of a stage is read from any table and the block
    count is not negative, the normalised [strides] and [chns] both have
    exactly [block_num] items, and nothing of the framework was called; a
    table without the stage raises [KeyError] for its name. *)
Theorem read_stage_normalised :
  (∀ params stage block_num strides chns log,
     read_stage params stage = (inr (block_num, strides, chns), log) →
     0 <= block_num →
     log = [] ∧ Py.len strides = inr block_num ∧
     Py.len chns = inr block_num) ∧
  (∀ (params : gmap string Py.value) stage,
     params !! stage = None →
     read_stage params stage = (inl (Py.KeyError stage), [])).
Proof.
  split.
  - intros params stage block_num strides chns log H Hn.
    unfold read_stage in H. inv_run H.
    cbn in H. injection H as <- <- <- <-.
    split; [reflexivity|].
    split; eapply check_data_normalised; eassumption.
  - intros params stage H. unfold read_stage, Py.dict_getitem.
    now rewrite H.
Qed.

Lemma read_stage_normalised_witness :
  ∃ strides chns,
    read_stage xception_71_params "middle_flow" = (inr (16, strides, chns), []) ∧
    Py.len strides = inr 16 ∧ Py.len chns = inr 16 ∧
    read_stage xception_71_params "head"
      = (inl (Py.KeyError "head"), []).
Proof.
  destruct (read_stage xception_71_params "middle_flow")
    as [[e|[[n strides] chns]] log] eqn:E; [vm_compute in E; discriminate|].
  assert (n = 16) as -> by (vm_compute in E; congruence).
  destruct read_stage_normalised as [H Hk].
  destruct (H _ _ _ _ _ _ E) as (-> & Hs & Hc); [lia|].
  exists strides, chns. split; [reflexivity|].
  split; [assumption|]. split; [assumption|].
  apply Hk. vm_compute. reflexivity.
Defined.

(** ** The two loops over any table *)

(** X5. Whatever the table holds, a run of the entry-flow loop or of the
    middle-flow loop that starts with the accumulator within
    [output_stride] only makes updates that start where the previous one
    ended, multiply by the requested stride when the product stays within
    the bound and by 1 otherwise, and stay within the bound - also when
    the loop raises part-way.  When the loop returns it has appended one
    block per index and the accumulator is within the bound. *)
Theorem stride_loops_within_bound
    backbone (strides chns : Py.value) (self_stride os : Z)
    (idx : list Z) (acc : list Xception_Block) (s : Z) :
  s <= os →
  let entry :=
    for_each (entry_flow_body backbone strides chns self_stride os)
             idx (acc, s) in
  let middle :=
    for_each (middle_flow_body backbone strides os) idx (acc, s) in
  (StepsWithin os s (stride_steps (calls entry)) ∧
   ∀ acc' s', result entry = inr (acc', s') →
              s' <= os ∧ length acc' = (length acc + length idx)%nat) ∧
  (StepsWithin os s (stride_steps (calls middle)) ∧
   ∀ acc' s', result middle = inr (acc', s') →
              s' <= os ∧ length acc' = (length acc + length idx)%nat).
Proof.
  intros Hs. split.
  - apply for_each_steps_within; [apply entry_flow_body_clipping|exact Hs].
  - apply for_each_steps_within; [apply middle_flow_body_clipping|exact Hs].
Qed.

(** A table that asks for stride 2 four times under a bound of 8: the
    last two requests are clipped. *)
Lemma stride_loops_within_bound_witness :
  let strides := Py.VList [Py.VInt 2; Py.VInt 2; Py.VInt 2; Py.VInt 2] in
  let chns := Py.VList [Py.VInt 8; Py.VInt 8; Py.VInt 8; Py.VInt 8] in
  let entry :=
    for_each (entry_flow_body "x" strides chns 2 8) (Py.range 4) ([], 2) in
  stride_steps (calls entry)
    = [(2, 2, 2, 4); (4, 2, 2, 8); (8, 2, 1, 8); (8, 2, 1, 8)] ∧
  StepsWithin 8 2 (stride_steps (calls entry)) ∧
  ∃ blocks, result entry = inr (blocks, 8) ∧ length blocks = 4%nat.
Proof.
  cbn zeta.
  pose proof (stride_loops_within_bound "x"
    (Py.VList [Py.VInt 2; Py.VInt 2; Py.VInt 2; Py.VInt 2])
    (Py.VList [Py.VInt 8; Py.VInt 8; Py.VInt 8; Py.VInt 8])
    2 8 (Py.range 4) [] 2 ltac:(lia)) as [[Hsteps Hres] _].
  split; [vm_compute; reflexivity|]. split; [exact Hsteps|].
  destruct (result (for_each
    (entry_flow_body "x"
       (Py.VList [Py.VInt 2; Py.VInt 2; Py.VInt 2; Py.VInt 2])
       (Py.VList [Py.VInt 8; Py.VInt 8; Py.VInt 8; Py.VInt 8]) 2 8)
    (Py.range 4) ([], 2))) as [e|[blocks s']] eqn:E;
    [vm_compute in E; discriminate|].
  assert (s' = 8) as -> by (vm_compute in E; congruence).
  exists blocks. split; [reflexivity|]. now apply (Hres blocks 8).
Defined.

(** X6. Whatever the table holds, the block that an iteration of the
    entry-flow loop builds has the strides [1, 1, self.stride], and the
    block that an iteration of the middle-flow loop builds has the strides
    [1, 1, strides[i]]: in both loops the block is given a stride other
    than the clipped one that the accumulator is multiplied by. *)
Theorem loop_blocks_strides
    backbone (strides chns : Py.value) (self_stride os i : Z)
    (acc : list Xception_Block) (s : Z) :
  (∀ acc' s',
     result (entry_flow_body backbone strides chns self_stride os i (acc, s))
       = inr (acc', s') →
     ∃ blk requested,
       acc' = acc ++ [blk] ∧ xb_strides blk = [1; 1; self_stride] ∧
       (x ← Py.getitem strides i; Py.as_int x) = inr requested ∧
       s' = s * clipped_stride s requested os) ∧
  (∀ acc' s',
     result (middle_flow_body backbone strides os i (acc, s))
       = inr (acc', s') →
     ∃ blk requested,
       acc' = acc ++ [blk] ∧ xb_strides blk = [1; 1; requested] ∧
       (x ← Py.getitem strides i; Py.as_int x) = inr requested ∧
       s' = s * clipped_stride s requested os).
Proof.
  split; intros acc' s' H.
  - eapply entry_flow_body_block_strides; eassumption.
  - eapply middle_flow_body_block_strides; eassumption.
Qed.

(** With the accumulator at the bound 32 and a table stride of 2, the
    middle-flow block is built with stride 2 and the accumulator stays. *)
Lemma loop_blocks_strides_witness :
  ∃ blk,
    result (middle_flow_body "x" (Py.VList [Py.VInt 2]) 32 0 ([], 32))
      = inr ([blk], 32) ∧
    xb_strides blk = [1; 1; 2] ∧ clipped_stride 32 2 32 = 1.
Proof.
  destruct (result (middle_flow_body "x" (Py.VList [Py.VInt 2]) 32 0 ([], 32)))
    as [e|[acc' s']] eqn:E; [vm_compute in E; discriminate|].
  destruct (loop_blocks_strides "x" (Py.VList [Py.VInt 2]) Py.VNone 2 32 0
              [] 32) as [_ H].
  destruct (H acc' s' E) as (blk & requested & -> & Hst & Hr & ->).
  vm_compute in Hr. injection Hr as <-.
  exists blk. split; [reflexivity|]. split; [exact Hst|reflexivity].
Defined.

(** ** The layers of a built block *)

Lemma Xception_Block_init_shape ic oc st fs d sc hs act name b l :
  Xception_Block_init ic oc st fs d sc hs act name = (inr b, l) →
  xb_in_channels b = ic ∧
  separable d (xb_conv1 b) ∧ separable d (xb_conv2 b) ∧
  separable d (xb_conv3 b) ∧
  sc_in_channels (xb_conv2 b) = sc_out_channels (xb_conv1 b) ∧
  sc_in_channels (xb_conv3 b) = sc_out_channels (xb_conv2 b) ∧
  (∀ short, xb_short b = Some short →
     hs && sc = true ∧
     Paddle.in_channels (cb_conv short) = ic ∧
     Paddle.out_channels (cb_conv short) = xb_out_channels b ∧
     Paddle.num_channels (cb_bn short) = xb_out_channels b ∧
     Paddle.stride (cb_conv short) = Paddle.stride (sc_conv1 (xb_conv3 b)) ∧
     Paddle.kernel_size (cb_conv short) = 1 ∧
     Paddle.padding (cb_conv short) = 0) ∧
  l = Xception_Block_layers b.
Proof.
  unfold Xception_Block_init. intros H. inv_run H.
  cbn in H. injection H as <- <-.
  pose proof (check_data_last _ _ E) as Loc.
  pose proof (check_data_last _ _ E1) as Lst.
  assert (a5 = a2) as -> by congruence.
  assert (a9 = a6) as -> by congruence.
  split; [reflexivity|].
  split; [repeat split|]. split; [repeat split|]. split; [repeat split|].
  split; [reflexivity|]. split; [reflexivity|].
  destruct (hs && sc).
  - inv_run E13. cbn in E13. injection E13 as <- <-.
    rewrite Loc in E14. rewrite Lst in E15.
    assert (a5 = a10) as -> by congruence.
    assert (a9 = a11) as -> by congruence.
    split; [|reflexivity].
    intros short [= <-]. repeat split.
  - injection E13 as <- <-. split; [discriminate|reflexivity].
Qed.

(** X7. Every block that [Xception_Block] builds is wired consistently,
    whatever its arguments: its first separable convolution takes the
    block's input channels; each of the three is a depthwise convolution
    that keeps the channel count (groups = channels, padding
    [kernel_size // 2 * dilation]) followed by a 1x1 pointwise one; each
    takes the channels the previous one produces; and a shortcut exists
    only for [has_skip and skip_conv] and then is a 1x1 convolution from
    the block's input channels to its output channels with the stride of
    the third separable convolution. *)
Theorem Xception_Block_wiring ic oc st fs d sc hs act name b l :
  Xception_Block_init ic oc st fs d sc hs act name = (inr b, l) →
  xb_in_channels b = ic ∧
  separable d (xb_conv1 b) ∧ separable d (xb_conv2 b) ∧
  separable d (xb_conv3 b) ∧
  sc_in_channels (xb_conv2 b) = sc_out_channels (xb_conv1 b) ∧
  sc_in_channels (xb_conv3 b) = sc_out_channels (xb_conv2 b) ∧
  (∀ short, xb_short b = Some short →
     hs && sc = true ∧
     Paddle.in_channels (cb_conv short) = ic ∧
     Paddle.out_channels (cb_conv short) = xb_out_channels b ∧
     Paddle.num_channels (cb_bn short) = xb_out_channels b ∧
     Paddle.stride (cb_conv short) = Paddle.stride (sc_conv1 (xb_conv3 b)) ∧
     Paddle.kernel_size (cb_conv short) = 1 ∧
     Paddle.padding (cb_conv short) = 0).
Proof.
  intros H. apply Xception_Block_init_shape in H
    as (H1 & H2 & H3 & H4 & H5 & H6 & H7 & _).
  repeat (split; [assumption|]). assumption.
Qed.

Lemma Xception_Block_wiring_witness :
  ∃ b short,
    result (Xception_Block_init 728
              (Py.VList [Py.VInt 728; Py.VInt 1024; Py.VInt 1024])
              (Py.VList [Py.VInt 1; Py.VInt 1; Py.VInt 2]) (Py.VInt 3) 1
              true true false "exit") = inr b ∧
    xb_in_channels b = 728 ∧
    sc_in_channels (xb_conv3 b) = sc_out_channels (xb_conv2 b) ∧
    separable 1 (xb_conv3 b) ∧
    xb_short b = Some short ∧
    Paddle.out_channels (cb_conv short) = xb_out_channels b.
Proof.
  destruct (Xception_Block_init 728
              (Py.VList [Py.VInt 728; Py.VInt 1024; Py.VInt 1024])
              (Py.VList [Py.VInt 1; Py.VInt 1; Py.VInt 2]) (Py.VInt 3) 1
              true true false "exit") as [[e|b] l] eqn:E;
    [vm_compute in E; discriminate|].
  destruct (Xception_Block_wiring _ _ _ _ _ _ _ _ _ _ _ E)
    as (H1 & _ & _ & H4 & _ & H6 & H7).
  destruct (xb_short b) as [short|] eqn:Es.
  - exists b, short. destruct (H7 short eq_refl) as (_ & _ & Ho & _).
    repeat (split; [first [reflexivity|assumption]|]). assumption.
  - exfalso. vm_compute in E. injection E as <- _. discriminate.
Defined.

(** X8. The calls a successful [Xception_Block] construction makes are
    exactly the creations of the layers the block holds, each once and in
    the order of the constructor: twelve for the three separable
    convolutions, and two more when there is a shortcut.  Nothing else is
    called and no created layer is dropped. *)
Theorem Xception_Block_creates_its_layers ic oc st fs d sc hs act name b l :
  Xception_Block_init ic oc st fs d sc hs act name = (inr b, l) →
  l = Xception_Block_layers b ∧
  length l = (if hs && sc then 14 else 12)%nat ∧
  loader_calls l = [] ∧ stride_steps l = [].
Proof.
  intros H.
  pose proof (Xception_Block_init_inr _ _ _ _ _ _ _ _ _ _ _ H)
    as (_ & _ & _ & _ & _ & _ & _ & short & _ & _ & _ & _ & _ & _ & _
        & _ & _ & _ & _ & _ & _ & _ & _ & Hshort).
  apply Xception_Block_init_shape in H as (_ & _ & _ & _ & _ & _ & _ & ->).
  split; [reflexivity|]. unfold Xception_Block_layers. rewrite Hshort.
  destruct (hs && sc); repeat split.
Qed.

Lemma Xception_Block_creates_its_layers_witness :
  ∃ b,
    Xception_Block_init 728 (Py.VInt 728) (Py.VInt 1) (Py.VInt 3) 1
      false true false "middle" = (inr b, Xception_Block_layers b) ∧
    length (Xception_Block_layers b) = 12%nat.
Proof.
  destruct (Xception_Block_init 728 (Py.VInt 728) (Py.VInt 1) (Py.VInt 3) 1
              false true false "middle") as [[e|b] l] eqn:E;
    [vm_compute in E; discriminate|].
  destruct (Xception_Block_creates_its_layers _ _ _ _ _ _ _ _ _ _ _ E)
    as (-> & Hlen & _).
  exists b. split; [reflexivity|exact Hlen].
Defined.

(** ** The built model *)

Lemma XceptionDeeplab_init_inr_supported backbone class_dim model log :
  XceptionDeeplab_init backbone class_dim = (inr model, log) →
  In backbone supported_backbones.
Proof.
  unfold XceptionDeeplab_init.
  destruct (gen_bottleneck_params backbone) as [e|params] eqn:G.
  - rewrite lift_inl_bind. discriminate.
  - intros _. eapply gen_bottleneck_params_supported; eassumption.
Qed.

Lemma Xception_Block_forward_total (b : Xception_Block) (x : Paddle.tensor) :
  has_short_when_read b = true → ∃ t, Xception_Block_forward b x = inr t.
Proof.
  unfold has_short_when_read, Xception_Block_forward.
  destruct (xb_has_skip b), (xb_skip_conv b); cbn; eauto.
  destruct (xb_short b); [eauto|discriminate].
Qed.

Lemma forward_blocks_total (blocks : list Xception_Block) :
  forallb has_short_when_read blocks = true →
  ∀ x, ∃ t, forward_blocks blocks x = inr t.
Proof.
  induction blocks as [|b rest IH]; intros H x; [cbn; eauto|].
  cbn in H. apply andb_prop in H as [Hb Hrest].
  destruct (Xception_Block_forward_total b x Hb) as [t Ht].
  cbn. rewrite Ht. now apply IH.
Qed.

Lemma model_observed (backbone : string) (class_dim : Z) :
  In backbone supported_backbones →
  let run := XceptionDeeplab_init backbone class_dim in
  let shape model :=
    (forallb has_short_when_read (xd_blocks model),
     channels_chain 3 (xd_channels model),
     forallb identity_skip_fits (xd_blocks model),
     xd_stride model, xd_output_stride model, built_stride model) in
  let names := param_names (calls run) in
  (shape <$> built run,
   distinct_names names,
   forallb (λ n, (n =? "fc_weights")%string || (n =? "fc_bias")%string
                 || String.prefix (backbone +:+ "/") n) names)
  = (Some (true, Some class_dim, true, 32, 32,
           if (backbone =? "xception_71")%string then 128 else 32),
     true, true).
Proof. intros [<-|[<-|[<-|[]]]]; vm_compute; reflexivity. Qed.

Lemma model_shape backbone class_dim model log :
  XceptionDeeplab_init backbone class_dim = (inr model, log) →
  forallb has_short_when_read (xd_blocks model) = true ∧
  channels_chain 3 (xd_channels model) = Some class_dim ∧
  forallb identity_skip_fits (xd_blocks model) = true ∧
  xd_stride model = 32 ∧ xd_output_stride model = 32 ∧
  built_stride model
    = (if (backbone =? "xception_71")%string then 128 else 32) ∧
  distinct_names (param_names log) = true ∧
  forallb (λ n, (n =? "fc_weights")%string || (n =? "fc_bias")%string
                || String.prefix (backbone +:+ "/") n) (param_names log)
    = true.
Proof.
  intros E.
  pose proof (model_observed backbone class_dim
                (XceptionDeeplab_init_inr_supported _ _ _ _ E)) as H.
  cbn zeta in H. rewrite E in H. cbn [built result calls fst snd] in H.
  apply pair_equal_spec in H as [H Hprefix].
  apply pair_equal_spec in H as [H Hdistinct].
  cbn beta in H. injection H as H.
  repeat (apply pair_equal_spec in H as [H ?]).
  repeat (split; [assumption|]). assumption.
Qed.

Lemma distinct_names_NoDup (names : list string) :
  distinct_names names = true → List.NoDup names.
Proof.
  induction names as [|n rest IH]; [constructor|].
  cbn. intros [Hn Hrest]%andb_prop. constructor; [|now apply IH].
  intros Hin. apply negb_true_iff in Hn.
  assert (existsb (String.eqb n) rest = true) as Hex; [|congruence].
  apply existsb_exists. exists n. split; [exact Hin|apply String.eqb_refl].
Qed.

(** X9. The forward pass of any model that [XceptionDeeplab] built
    returns for every input - no block reads a shortcut it was built
    without - and its result is the classifier applied to the squeezed
    global average pool of the dropout of the output of exit-flow
    block 2, itself applied to the chain of the stem convolutions and of
    the entry-flow, middle-flow and first exit-flow blocks. *)
Theorem XceptionDeeplab_forward_returns
    backbone class_dim model log (inputs : Paddle.tensor) :
  XceptionDeeplab_init backbone class_dim = (inr model, log) →
  ∃ x_entry x_middle x_exit1 x_exit2,
    forward_blocks (xd_entry_flow model)
      (ConvBNLayer_forward (xd_conv2 model)
         (ConvBNLayer_forward (xd_conv1 model) inputs)) = inr x_entry ∧
    forward_blocks (xd_middle_flow model) x_entry = inr x_middle ∧
    Xception_Block_forward (xd_exit_flow_1 model) x_middle = inr x_exit1 ∧
    Xception_Block_forward (xd_exit_flow_2 model) x_exit1 = inr x_exit2 ∧
    XceptionDeeplab_forward model inputs
    = inr (Paddle.TLinear (xd_fc model)
             (Paddle.TSqueeze
                (Paddle.TAdaptiveAvgPool2D (Paddle.TDropout x_exit2)))).
Proof.
  intros E. destruct (model_shape _ _ _ _ E) as (Hwf & _).
  unfold xd_blocks in Hwf. rewrite !forallb_app in Hwf. cbn in Hwf.
  apply andb_prop in Hwf as [He Hwf]. apply andb_prop in Hwf as [Hm Hwf].
  apply andb_prop in Hwf as [H1 Hwf]. apply andb_prop in Hwf as [H2 _].
  destruct (forward_blocks_total _ He
              (ConvBNLayer_forward (xd_conv2 model)
                 (ConvBNLayer_forward (xd_conv1 model) inputs)))
    as [x_entry Hxe].
  destruct (forward_blocks_total _ Hm x_entry) as [x_middle Hxm].
  destruct (Xception_Block_forward_total _ x_middle H1) as [x_exit1 Hx1].
  destruct (Xception_Block_forward_total _ x_exit1 H2) as [x_exit2 Hx2].
  exists x_entry, x_middle, x_exit1, x_exit2.
  repeat (split; [assumption|]).
  unfold XceptionDeeplab_forward. cbn zeta.
  rewrite Hxe. cbn. rewrite Hxm. cbn. rewrite Hx1. cbn. rewrite Hx2.
  reflexivity.
Qed.

Lemma XceptionDeeplab_forward_returns_witness :
  ∃ model x,
    result (XceptionDeeplab_init "xception_41" 10) = inr model ∧
    XceptionDeeplab_forward model (Paddle.TInput 0)
    = inr (Paddle.TLinear (xd_fc model)
             (Paddle.TSqueeze
                (Paddle.TAdaptiveAvgPool2D (Paddle.TDropout x)))).
Proof.
  destruct (XceptionDeeplab_init_supported "xception_41" 10)
    as (model & log & E & _); [left; reflexivity|].
  destruct (XceptionDeeplab_forward_returns _ _ _ _ (Paddle.TInput 0) E)
    as (_ & _ & _ & x & _ & _ & _ & _ & H).
  exists model, x. rewrite E. split; [reflexivity|exact H].
Defined.

(** X10. In any model that [XceptionDeeplab] built, the channel counts
    fit from end to end: starting from the 3 channels of the image, each
    of the two stem convolutions, each block of the three flows and the
    classifier takes the channels the stage before it produces, and the
    classifier produces [class_dim]; every block whose skip path is the
    input itself keeps the channel count and has strides 1, so that the
    two tensors it adds have the same shape. *)
Theorem XceptionDeeplab_channels_fit backbone class_dim model log :
  XceptionDeeplab_init backbone class_dim = (inr model, log) →
  channels_chain 3 (xd_channels model) = Some class_dim ∧
  Forall (λ b, xb_has_skip b = true → xb_skip_conv b = false →
               xb_in_channels b = xb_out_channels b ∧
               xb_strides b = [1; 1; 1])
         (xd_blocks model).
Proof.
  intros E. destruct (model_shape _ _ _ _ E) as (_ & Hc & Hi & _).
  split; [exact Hc|].
  apply List.Forall_forall. intros b Hb Hs Hk.
  rewrite forallb_forall in Hi. specialize (Hi b Hb).
  unfold identity_skip_fits in Hi. rewrite Hs, Hk in Hi.
  cbn [andb negb forallb xb_strides] in Hi.
  repeat match goal with
         | H : _ && _ = true |- _ => apply andb_prop in H as [? ?]
         end.
  repeat match goal with
         | H : (_ =? _) = true |- _ => apply Z.eqb_eq in H
         end.
  split; [assumption|]. unfold xb_strides. congruence.
Qed.

Lemma XceptionDeeplab_channels_fit_witness :
  ∃ model,
    result (XceptionDeeplab_init "xception_65" 1000) = inr model ∧
    channels_chain 3 (xd_channels model) = Some 1000.
Proof.
  destruct (XceptionDeeplab_init_supported "xception_65" 1000)
    as (model & log & E & _); [right; left; reflexivity|].
  destruct (XceptionDeeplab_channels_fit _ _ _ _ E) as [H _].
  exists model. rewrite E. split; [reflexivity|exact H].
Defined.

(** X11. The parameter names that the construction of a model hands to
    the framework - convolution weights, the four names of every batch
    norm, the two of the classifier - are pairwise distinct, and all but
    [fc_weights] and [fc_bias] start with the backbone name and a
    slash. *)
Theorem XceptionDeeplab_param_names_distinct backbone class_dim model log :
  XceptionDeeplab_init backbone class_dim = (inr model, log) →
  List.NoDup (param_names log) ∧
  Forall (λ n, n = "fc_weights"%string ∨ n = "fc_bias"%string ∨
               String.prefix (backbone +:+ "/") n = true)
         (param_names log).
Proof.
  intros E.
  destruct (model_shape _ _ _ _ E) as (_ & _ & _ & _ & _ & _ & Hd & Hp).
  split; [now apply distinct_names_NoDup|].
  apply List.Forall_forall. intros n Hn.
  rewrite forallb_forall in Hp. specialize (Hp n Hn).
  apply orb_prop in Hp as [Hp|Hp]; [|auto].
  apply orb_prop in Hp as [Hp|Hp]; apply String.eqb_eq in Hp; auto.
Qed.

Lemma XceptionDeeplab_param_names_distinct_witness :
  ∃ log,
    calls (XceptionDeeplab_init "xception_71" 1000) = log ∧
    List.NoDup (param_names log).
Proof.
  destruct (XceptionDeeplab_init_supported "xception_71" 1000)
    as (model & log & E & _); [right; right; left; reflexivity|].
  destruct (XceptionDeeplab_param_names_distinct _ _ _ _ E) as [H _].
  exists log. rewrite E. split; [reflexivity|exact H].
Defined.

(** X12. The stride a built model records in [self.stride] is 32 for
    every backbone.  The layers as built downsample by that factor for
    [xception_41] and [xception_65]; for [xception_71] the product of the
    strides of the built layers is 128, four times the recorded stride and
    beyond [output_stride]. *)
Theorem XceptionDeeplab_recorded_and_built_stride
    backbone class_dim model log :
  XceptionDeeplab_init backbone class_dim = (inr model, log) →
  xd_stride model = 32 ∧ xd_output_stride model = 32 ∧
  built_stride model
    = (if (backbone =? "xception_71")%string then 128 else 32).
Proof.
  intros E.
  destruct (model_shape _ _ _ _ E) as (_ & _ & _ & Hs & Ho & Hb & _).
  auto.
Qed.

Lemma XceptionDeeplab_recorded_and_built_stride_witness :
  ∃ model,
    result (XceptionDeeplab_init "xception_71" 1000) = inr model ∧
    xd_stride model = 32 ∧ built_stride model = 128.
Proof.
  destruct (XceptionDeeplab_init_supported "xception_71" 1000)
    as (model & log & E & _); [right; right; left; reflexivity|].
  destruct (XceptionDeeplab_recorded_and_built_stride _ _ _ _ E)
    as (Hs & _ & Hb).
  exists model. rewrite E. split; [reflexivity|]. split; assumption.
Defined.

(** X13. Constructing [XceptionDeeplab] never loads weights: whatever
    the backbone name and [class_dim], no loader is called.  A model is
    returned only for one of the three supported names, and it carries
    that name; and when the unsupported-backbone error is raised, no
    framework layer had been created. *)
Theorem XceptionDeeplab_init_never_loads (backbone : string) (class_dim : Z) :
  let run := XceptionDeeplab_init backbone class_dim in
  loader_calls (calls run) = [] ∧
  (∀ model, result run = inr model →
            In backbone supported_backbones ∧ xd_backbone model = backbone) ∧
  (result run = inl (Py.Exception unsupported_backbone_error) →
   calls run = []).
Proof.
  cbn zeta.
  destruct (gen_bottleneck_params backbone) as [e|params] eqn:G.
  - assert (XceptionDeeplab_init backbone class_dim = (inl e, [])) as ->.
    { unfold XceptionDeeplab_init. rewrite G. apply lift_inl_bind. }
    split; [reflexivity|]. split; [discriminate|reflexivity].
  - pose proof (gen_bottleneck_params_supported _ _ G) as Hin.
    destruct (XceptionDeeplab_init_supported backbone class_dim Hin)
      as (model & log & -> & Hl & Hb).
    split; [exact Hl|]. split; [|discriminate].
    intros model' [= <-]. auto.
Qed.

(** ** What the factory functions do with their flags *)

Lemma load_pretrained_ignores_use_ssld pretrained model url use_ssld use_ssld' :
  Py.is_True pretrained = false →
  _load_pretrained pretrained model url use_ssld
  = _load_pretrained pretrained model url use_ssld'.
Proof. destruct pretrained as [|[|]| | | |]; try discriminate; reflexivity. Qed.

(** X14. For every factory function: with [pretrained=False] a call is
    the plain construction of its backbone's model, with the same calls
    into the framework; [use_ssld] has no effect unless [pretrained] is
    [True]; and when [pretrained] has an unsupported type the error is
    raised only after the whole model was built - the calls made are
    those of the construction. *)
Theorem factory_flags
    name factory (pretrained : Py.value) (use_ssld use_ssld' : bool)
    (class_dim : Z) :
  In (name, factory) factories →
  ∃ backbone,
    In (name, backbone) [("Xception41_deeplab", "xception_41");
                         ("Xception65_deeplab", "xception_65")]%string ∧
    factory (Py.VBool false) use_ssld class_dim
      = XceptionDeeplab_init backbone class_dim ∧
    (Py.is_True pretrained = false →
     factory pretrained use_ssld class_dim
     = factory pretrained use_ssld' class_dim) ∧
    (Py.is_True pretrained = false → Py.is_False pretrained = false →
     Py.isinstance_str pretrained = false →
     factory pretrained use_ssld class_dim
     = (inl (Py.RuntimeError pretrained_type_error),
        calls (XceptionDeeplab_init backbone class_dim))).
Proof.
  intros Hin.
  destruct (factories_build _ _ Hin) as (backbone & url & Hb & _ & Hu & Hf).
  exists backbone. split; [exact Hb|].
  assert (In backbone supported_backbones) as Hsup.
  { destruct Hb as [[= _ <-]|[[= _ <-]|[]]]; cbn; auto. }
  destruct (XceptionDeeplab_init_supported backbone class_dim Hsup)
    as (model & log & E & _).
  rewrite !Hf, E, Hu. cbn [mbind M_bind]. rewrite !lift_inr_bind.
  split; [cbn; now rewrite app_nil_r|]. split.
  - intros HT.
    now rewrite (load_pretrained_ignores_use_ssld _ _ _ use_ssld use_ssld' HT).
  - intros HT HF HS. rewrite (load_pretrained_other _ _ _ _ HT HF HS).
    cbn. now rewrite app_nil_r.
Qed.

Lemma factory_flags_witness :
  Xception65_deeplab (Py.VBool false) true 1000
    = XceptionDeeplab_init "xception_65" 1000 ∧
  Xception65_deeplab (Py.VStr "w.pdparams") true 1000
    = Xception65_deeplab (Py.VStr "w.pdparams") false 1000 ∧
  Xception65_deeplab Py.VNone true 1000
    = (inl (Py.RuntimeError pretrained_type_error),
       calls (XceptionDeeplab_init "xception_65" 1000)).
Proof.
  destruct (factory_flags "Xception65_deeplab" Xception65_deeplab
              (Py.VStr "w.pdparams") true false 1000)
    as (backbone & Hb & H0 & H1 & _); [right; left; reflexivity|].
  destruct Hb as [[=]|[[= <-]|[]]].
  split; [exact H0|]. split; [now apply H1|].
  destruct (factory_flags "Xception65_deeplab" Xception65_deeplab
              Py.VNone true false 1000)
    as (backbone & Hb & _ & _ & H2); [right; left; reflexivity|].
  destruct Hb as [[=]|[[= <-]|[]]].
  now apply H2.
Defined.
